(** * BingoApp event engine: a shallow embedding of [app/server.py]

    The server keeps one JSON document, [data/latest.json], as the current
    event, and one JSON document per event as its archive.  Every request
    handler loads the current document, changes it and writes it back.

    The embedding follows the Python source function by function:
    - JSON values as [json.loads] returns them ([None], [bool], [int], [str],
      [list], [dict]); a [dict] is an association list in insertion order;
    - Python exceptions as an error monad, the file system and the handlers
      on top of it as a state-and-error monad over [world];
    - the clock and the random generator as arguments of the handlers.

    Modelling limits, stated once: strings are sequences of ASCII characters
    (Unicode classes of other characters are not modelled), JSON numbers are
    integers (a fractional literal, which Python loads as a [float], is outside
    the model) of at most 4300 digits (the most that [json.loads] and [str]
    take), directories and symbolic links are not modelled (every directory
    on a path exists), and a failing file operation leaves the file system
    as it was. The name of a file is one that the operating system takes: on
    a name with a NUL character or with a piece longer than 255 characters
    [resolve()] and [exists()] raise, which the model does not follow; the
    statements about requests that are refused are made for the other names
    ([tame_name]). *)

From Stdlib Require Import Ascii.
From stdpp Require Import base numbers list strings gmap sorting pretty.

Local Open Scope string_scope.
Local Open Scope list_scope.
Local Open Scope Z_scope.

(** ** Python values and exceptions *)

#[warnings="-register-all"]
Inductive json : Type :=
  | JNull
  | JBool (b : bool)
  | JInt (z : Z)
  | JStr (s : string)
  | JList (l : list json)
  | JDict (d : list (string * json)).

Inductive exn : Type :=
  | TypeError
  | ValueError
  | AttributeError
  | IndexError
  | OSError.

Inductive result (A : Type) : Type :=
  | Ok (a : A)
  | Raise (e : exn).
Arguments Ok {A} a.
Arguments Raise {A} e.

#[global] Instance result_ret : MRet result := λ A a, Ok a.
#[global] Instance result_bind : MBind result := λ A B f r,
  match r with
  | Ok a => f a
  | Raise e => Raise e
  end.

(** [[f(x) for x in xs]]: stops at the first exception. *)
Fixpoint map_result {A B : Type} (f : A → result B) (xs : list A) : result (list B) :=
  match xs with
  | [] => Ok []
  | x :: xs' => y ← f x; ys ← map_result f xs'; Ok (y :: ys)
  end.

(** ** Strings *)

Definition char_code (a : ascii) : Z := Z.of_nat (nat_of_ascii a).

(** [str.isspace] on ASCII: TAB, LF, VT, FF, CR, FS, GS, RS, US and space. *)
Definition is_space (a : ascii) : bool :=
  let c := char_code a in
  (9 <=? c) && (c <=? 13) || (28 <=? c) && (c <=? 32).

Definition is_digit (a : ascii) : bool :=
  let c := char_code a in (48 <=? c) && (c <=? 57).

Definition is_alpha (a : ascii) : bool :=
  let c := char_code a in
  (65 <=? c) && (c <=? 90) || (97 <=? c) && (c <=? 122).

Definition is_alnum (a : ascii) : bool := is_alpha a || is_digit a.

Fixpoint lstrip (s : string) : string :=
  match s with
  | EmptyString => EmptyString
  | String a s' => if is_space a then lstrip s' else s
  end.

Definition rstrip (s : string) : string := String.rev (lstrip (String.rev s)).

(** [s.strip()] *)
Definition strip (s : string) : string := rstrip (lstrip s).

Fixpoint str_all (f : ascii → bool) (s : string) : bool :=
  match s with
  | EmptyString => true
  | String a s' => f a && str_all f s'
  end.

Fixpoint str_filter (f : ascii → bool) (s : string) : string :=
  match s with
  | EmptyString => EmptyString
  | String a s' => if f a then String a (str_filter f s') else str_filter f s'
  end.

Definition str_nonempty (s : string) : bool :=
  match s with
  | EmptyString => false
  | String _ _ => true
  end.

(** [s.isdigit()]: at least one character, all of them digits. *)
Definition isdigit (s : string) : bool := str_nonempty s && str_all is_digit s.

(** [a or b] on strings. *)
Definition str_or (a b : string) : string := if str_nonempty a then a else b.

(** The characters of a string, each as a string of length one. *)
Fixpoint str_chars (s : string) : list string :=
  match s with
  | EmptyString => []
  | String a s' => String a EmptyString :: str_chars s'
  end.

(** Decimal digits with single underscores between them, as [int] reads
    them; [seen] tells whether the previous character was a digit. *)
Fixpoint digits_value (acc : Z) (seen : bool) (s : string) : option Z :=
  match s with
  | EmptyString => if seen then Some acc else None
  | String a s' =>
      if is_digit a then digits_value (10 * acc + (char_code a - 48)) true s'
      else if Ascii.eqb a "_" then
        (if seen then digits_value acc false s' else None)
      else None
  end.

(** The white space that [int] skips around ASCII text: TAB, LF, VT, FF, CR
    and space. [str.strip] also takes FS, GS, RS and US; [int] does not. *)
Definition is_int_space (a : ascii) : bool :=
  let c := char_code a in
  (9 <=? c) && (c <=? 13) || (c =? 32).

Fixpoint int_lstrip (s : string) : string :=
  match s with
  | EmptyString => EmptyString
  | String a s' => if is_int_space a then int_lstrip s' else s
  end.

Definition int_strip (s : string) : string :=
  String.rev (int_lstrip (String.rev (int_lstrip s))).

(** The most digits that [int] reads: [sys.get_int_max_str_digits()], which
    is 4300 unless the installation changes it. *)
Definition MAX_STR_DIGITS : nat := 4300.

(** [int(s)] for a string: surrounding white space, an optional sign, then
    the digits, no more than [MAX_STR_DIGITS] of them. *)
Definition int_of_string (s : string) : option Z :=
  let t := int_strip s in
  if (MAX_STR_DIGITS <? String.length (str_filter is_digit t))%nat then None
  else
    match t with
    | EmptyString => None
    | String a r =>
        if Ascii.eqb a "-" then Z.opp <$> digits_value 0 false r
        else if Ascii.eqb a "+" then digits_value 0 false r
        else digits_value 0 false t
    end.

Definition hex_digit (n : Z) : ascii :=
  ascii_of_nat (Z.to_nat (if n <? 10 then 48 + n else 87 + n)).

Fixpoint str_mem (c : ascii) (s : string) : bool :=
  match s with
  | EmptyString => false
  | String a s' => Ascii.eqb a c || str_mem c s'
  end.

Fixpoint repr_body (q : ascii) (s : string) : string :=
  match s with
  | EmptyString => EmptyString
  | String a s' =>
      let c := char_code a in
      let rest := repr_body q s' in
      if Ascii.eqb a "\" then String "\" (String "\" rest)
      else if Ascii.eqb a q then String "\" (String a rest)
      else if c =? 10 then String "\" (String "n" rest)
      else if c =? 13 then String "\" (String "r" rest)
      else if c =? 9 then String "\" (String "t" rest)
      else if (c <? 32) || (c =? 127) then
        String "\" (String "x" (String (hex_digit (c / 16))
                                       (String (hex_digit (c mod 16)) rest)))
      else String a rest
  end.

(** [repr(s)] for a string: single quotes, unless the string has a single
    quote and no double quote. *)
Definition double_quote : ascii := ascii_of_nat 34.

Definition repr_str (s : string) : string :=
  let q : ascii :=
    if str_mem "'" s && negb (str_mem double_quote s) then double_quote
    else "'"%char in
  String q (repr_body q s) +:+ String q EmptyString.

(** [repr(x)] *)
Fixpoint py_repr (j : json) : string :=
  match j with
  | JNull => "None"
  | JBool true => "True"
  | JBool false => "False"
  | JInt z => pretty z
  | JStr s => repr_str s
  | JList l => "[" +:+ String.concat ", " (map py_repr l) +:+ "]"
  | JDict d =>
      "{" +:+ String.concat ", "
                (map (λ kv, repr_str (fst kv) +:+ ": " +:+ py_repr (snd kv)) d)
          +:+ "}"
  end.

(** [str(x)] *)
Definition py_str (j : json) : string :=
  match j with
  | JStr s => s
  | _ => py_repr j
  end.

(** Truth value of [x] in [if x] and [x or y]. *)
Definition py_truthy (j : json) : bool :=
  match j with
  | JNull => false
  | JBool b => b
  | JInt z => negb (z =? 0)
  | JStr s => str_nonempty s
  | JList l => match l with [] => false | _ => true end
  | JDict d => match d with [] => false | _ => true end
  end.

(** [x or y] *)
Definition py_or (x y : json) : json := if py_truthy x then x else y.

(** [int(x)]; [bool] is a subclass of [int]. *)
Definition py_int (j : json) : result Z :=
  match j with
  | JBool b => Ok (if b then 1 else 0)
  | JInt z => Ok z
  | JStr s =>
      match int_of_string s with
      | Some z => Ok z
      | None => Raise ValueError
      end
  | _ => Raise TypeError
  end.

(** [isinstance(x, int)] *)
Definition is_int (j : json) : bool :=
  match j with
  | JBool _ | JInt _ => true
  | _ => false
  end.

(** [x == s] for a string literal [s]. *)
Definition eq_str (j : json) (s : string) : bool :=
  match j with
  | JStr t => bool_decide (t = s)
  | _ => false
  end.

(** ** Dictionaries *)

Fixpoint dict_get (d : list (string * json)) (k : string) : option json :=
  match d with
  | [] => None
  | (k', v) :: d' => if decide (k' = k) then Some v else dict_get d' k
  end.

(** [d[k] = v]: in place when the key is there, at the end otherwise. *)
Fixpoint dict_set (d : list (string * json)) (k : string) (v : json)
  : list (string * json) :=
  match d with
  | [] => [(k, v)]
  | (k', v') :: d' =>
      if decide (k' = k) then (k, v) :: d' else (k', v') :: dict_set d' k v
  end.

(** [x.get(k, dflt)]; only a [dict] has [get]. *)
Definition py_get (x : json) (k : string) (dflt : json) : result json :=
  match x with
  | JDict d => Ok (default dflt (dict_get d k))
  | _ => Raise AttributeError
  end.

(** [x[k] = v] for a string key. *)
Definition py_setitem (x : json) (k : string) (v : json) : result json :=
  match x with
  | JDict d => Ok (JDict (dict_set d k v))
  | _ => Raise TypeError
  end.

(** [list(x)] and [for e in x]: the items of a list, the characters of a
    string, the keys of a dict. *)
Definition py_list (x : json) : result (list json) :=
  match x with
  | JList l => Ok l
  | JStr s => Ok (JStr <$> str_chars s)
  | JDict d => Ok ((λ kv, JStr (fst kv)) <$> d)
  | _ => Raise TypeError
  end.

(** ** Paths, as [pathlib] on POSIX reads them *)

Inductive anchor : Type :=
  | Relative
  | Root
  | Root2.

Record path : Type := MkPath { anchor_of : anchor; parts : list string }.

#[global] Instance anchor_eq_dec : EqDecision anchor.
Proof. solve_decision. Defined.
#[global] Instance path_eq_dec : EqDecision path.
Proof. solve_decision. Defined.

(** The pieces of [s] between slashes; [cur] holds the current piece,
    reversed. *)
Fixpoint split_slash (cur : string) (s : string) : list string :=
  match s with
  | EmptyString => [String.rev cur]
  | String a s' =>
      if Ascii.eqb a "/" then String.rev cur :: split_slash "" s'
      else split_slash (String a cur) s'
  end.

(** [Path(s)]: empty pieces and [.] are dropped, [..] is kept; exactly two
    leading slashes are a root of their own. *)
Definition Path (s : string) : path :=
  let a :=
    match s with
    | String "/" (String "/" (String "/" _)) => Root
    | String "/" (String "/" _) => Root2
    | String "/" _ => Root
    | _ => Relative
    end in
  MkPath a (filter (λ c, c ≠ "" ∧ c ≠ ".") (split_slash "" s)).

(** [str(p)] *)
Definition path_str (p : path) : string :=
  match anchor_of p with
  | Root => "/" +:+ String.concat "/" (parts p)
  | Root2 => "//" +:+ String.concat "/" (parts p)
  | Relative =>
      match parts p with
      | [] => "."
      | _ => String.concat "/" (parts p)
      end
  end.

(** [p / q] *)
Definition path_div (p q : path) : path :=
  match anchor_of q with
  | Relative => MkPath (anchor_of p) (parts p ++ parts q)
  | _ => q
  end.

(** [p.name] *)
Definition path_name (p : path) : string := List.last (parts p) "".

(** Removing [..] together with the piece before it; at the root [..]
    stays at the root.  [seen] is the path so far, reversed. *)
Fixpoint collapse (seen : list string) (ps : list string) : list string :=
  match ps with
  | [] => rev seen
  | c :: ps' =>
      if decide (c = "..") then collapse (tail seen) ps'
      else collapse (c :: seen) ps'
  end.

(** [p.resolve()] in the working directory [cwd]; [os.path.realpath] reads
    two leading slashes as the root. *)
Definition resolve (cwd : path) (p : path) : path :=
  let q := path_div cwd p in
  MkPath (match anchor_of q with
          | Root2 => Root
          | a => a
          end)
         (collapse [] (parts q)).

Fixpoint is_proper_prefix (xs ys : list string) : bool :=
  match xs, ys with
  | [], _ :: _ => true
  | x :: xs', y :: ys' => bool_decide (x = y) && is_proper_prefix xs' ys'
  | _, _ => false
  end.

(** [d in p.parents] *)
Definition in_parents (d p : path) : bool :=
  bool_decide (anchor_of d = anchor_of p) && is_proper_prefix (parts d) (parts p).

(** ** The world: installation directory and file system *)

(** A file holds the text of a JSON document, [json.dumps] of a value that
    [json.loads] gives back, or text that [json.loads] rejects. *)
Inductive file : Type :=
  | Document (j : json)
  | Garbage.

(** [app_root] holds the pieces of the resolved [APP_ROOT]; [files] maps the
    resolved name of every file to its content; [write_text] raises on the
    names in [unwritable] and [unlink] on those in [undeletable]. *)
Record world : Type := World {
  app_root : list string;
  files : gmap string file;
  unwritable : gset string;
  undeletable : gset string
}.

Definition set_files (w : world) (fs : gmap string file) : world :=
  World (app_root w) fs (unwritable w) (undeletable w).

Definition APP_ROOT (w : world) : path := MkPath Root (app_root w).
Definition WEB_DIR (w : world) : path := path_div (APP_ROOT w) (Path "web").
Definition DATA_DIR (w : world) : path := path_div (APP_ROOT w) (Path "data").
Definition LATEST_FILE (w : world) : path := path_div (DATA_DIR w) (Path "latest.json").

(** The name under which the file system knows [p]; [main] changes the
    working directory to [WEB_DIR]. *)
Definition fs_key (w : world) (p : path) : string :=
  path_str (resolve (WEB_DIR w) p).

(** ** Handlers run in a state-and-exception monad over the world *)

Definition M (A : Type) : Type := world → result A * world.

#[global] Instance M_ret : MRet M := λ A a w, (Ok a, w).
#[global] Instance M_bind : MBind M := λ A B f m w,
  match m w with
  | (Ok a, w') => f a w'
  | (Raise e, w') => (Raise e, w')
  end.

Definition lift {A : Type} (r : result A) : M A := λ w, (r, w).

(** [try: m  except Exception: h] *)
Definition try_except {A : Type} (m : M A) (h : M A) : M A := λ w,
  match m w with
  | (Ok a, w') => (Ok a, w')
  | (Raise _, w') => h w'
  end.

(** [p.exists()] *)
Definition path_exists (p : world → path) : M bool := λ w,
  (Ok (bool_decide (is_Some (files w !! fs_key w (p w)))), w).

(** [json.loads(p.read_text(encoding="utf-8"))] *)
Definition read_json (p : world → path) : M json := λ w,
  match files w !! fs_key w (p w) with
  | Some (Document j) => (Ok j, w)
  | Some Garbage => (Raise ValueError, w)
  | None => (Raise OSError, w)
  end.

(** [p.write_text(json.dumps(j, ensure_ascii=False, indent=2), encoding="utf-8")] *)
Definition write_json (p : world → path) (j : json) : M unit := λ w,
  let k := fs_key w (p w) in
  if decide (k ∈ unwritable w) then (Raise OSError, w)
  else (Ok (), set_files w (<[k := Document j]> (files w))).

(** [p.unlink()] *)
Definition unlink (p : world → path) : M unit := λ w,
  let k := fs_key w (p w) in
  match files w !! k with
  | None => (Raise OSError, w)
  | Some _ =>
      if decide (k ∈ undeletable w) then (Raise OSError, w)
      else (Ok (), set_files w (delete k (files w)))
  end.

(** ** The server *)

Definition safe_name (s : string) : string :=
  str_or (strip (str_filter
                   (λ ch, is_alnum ch || Ascii.eqb ch "-" || Ascii.eqb ch "_") s))
         "event".

Definition bingo_label (n : Z) : string :=
  if (1 <=? n) && (n <=? 15) then "B-" +:+ pretty n
  else if (16 <=? n) && (n <=? 30) then "I-" +:+ pretty n
  else if (31 <=? n) && (n <=? 45) then "N-" +:+ pretty n
  else if (46 <=? n) && (n <=? 60) then "G-" +:+ pretty n
  else if (61 <=? n) && (n <=? 75) then "O-" +:+ pretty n
  else pretty n.

(** Python's [None] is [JNull]. *)
Definition load_latest : M json :=
  there ← path_exists LATEST_FILE;
  if negb there then mret JNull
  else try_except (read_json LATEST_FILE) (mret JNull).

Definition save_latest (state : json) : M unit :=
  write_json LATEST_FILE state.

(** [now_id()] and [datetime.now().isoformat(timespec="seconds")] read the
    clock; what they return is [event_id] and [created_at]. *)
Definition new_event (event_name : string) (winners_target : Z)
    (event_id created_at : string) : M json := λ w,
  let file_name := event_id +:+ "_" +:+ safe_name event_name +:+ ".json" in
  let event_file := path_div (DATA_DIR w) (Path file_name) in
  let state := JDict [
    ("eventId", JStr event_id);
    ("eventName", JStr event_name);
    ("winnersTarget", JInt winners_target);
    ("createdAt", JStr created_at);
    ("status", JStr "ready");
    ("startedAt", JNull);
    ("endedAt", JNull);
    ("currentNumber", JNull);
    ("currentLabel", JNull);
    ("drawnOrder", JList []);
    ("remainingCount", JInt 75);
    ("eventFile", JStr (path_str event_file));
    ("ui", JDict [
       ("animationMs", JInt 1000);
       ("confirmUndo", JBool true);
       ("confirmEnd", JBool true)]);
    ("rules", JDict [
       ("rangeMin", JInt 1);
       ("rangeMax", JInt 75);
       ("freeCenter", JBool true);
       ("winLine", JInt 1);
       ("diagAllowed", JBool true)])
  ] in
  (_ ← write_json (λ _, event_file) state;
   _ ← save_latest state;
   mret state) w.

Definition persist_state (state : json) : M unit :=
  _ ← save_latest state;
  event_file ← lift (py_get state "eventFile" JNull);
  match event_file with
  | JStr f =>
      if str_nonempty f
      then try_except (write_json (λ _, Path f) state) (mret ())
      else mret ()
  | _ => mret ()
  end.

(** The entries of [drawnOrder] that count: [int]s and strings of digits. *)
Definition counts (x : json) : bool :=
  is_int x || match x with JStr s => isdigit s | _ => false end.

Definition make_remaining_set (state : json) : result (gset Z) :=
  order ← py_get state "drawnOrder" (JList []);
  items ← py_list order;
  used ← map_result py_int (filter (λ x, counts x) items);
  Ok (list_to_set (seqZ 1 75) ∖ list_to_set used).

Definition require_running (state : json) : result bool :=
  status ← py_get state "status" JNull;
  Ok (eq_str status "running").

(** What a handler sends: [send_json(obj, status)]. *)
Record response : Type := Response { code : Z; payload : json }.

Definition send_json (obj : json) (status : Z) : M response :=
  mret (Response status obj).

Definition ok_reply (state : json) : json :=
  JDict [("ok", JBool true); ("state", state)].

Definition error_reply (msg : string) : json :=
  JDict [("ok", JBool false); ("error", JStr msg)].

Definition is_none (x : json) : bool :=
  match x with
  | JNull => true
  | _ => false
  end.

(** [isinstance(x, dict)] *)
Definition is_dict (x : json) : bool :=
  match x with
  | JDict _ => true
  | _ => false
  end.

(** [sorted(s)] for a set of integers. *)
Definition sorted (s : gset Z) : list Z := merge_sort Z.le (elements s).

(** [random.choice(l)] is [l[i]] for an index [i] below [len(l)] that the
    generator supplies; [r] is what the generator gives, [r mod len(l)] the
    index. *)
Definition choice (r : nat) (l : list Z) : result Z :=
  match l with
  | [] => Raise IndexError
  | x :: _ => Ok (nth (r mod length l)%nat l x)
  end.

Definition handle_api_state : M response :=
  state ← load_latest;
  if is_none state then send_json (ok_reply JNull) 200
  else send_json (ok_reply state) 200.

(** [body] is what [read_json_body] returns: the JSON value of the request,
    or the empty dict when there is none or it does not parse. *)
Definition handle_api_new (body : json) (event_id created_at : string)
  : M response :=
  name ← lift (py_get body "eventName" (JStr ""));
  let event_name := str_or (strip (py_str name)) "BingoEvent" in
  target ← lift (py_get body "winnersTarget" (JInt 0));
  winners_target ← lift (py_int (py_or target (JInt 0)));
  let winners_target := if winners_target <? 0 then 0 else winners_target in
  state ← new_event event_name winners_target event_id created_at;
  send_json (ok_reply state) 200.


Definition handle_api_start (now : string) : M response :=
  state ← load_latest;
  if is_none state then send_json (error_reply "no event") 400
  else
    status ← lift (py_get state "status" JNull);
    if eq_str status "ended" then send_json (error_reply "event ended") 400
    else
      status ← lift (py_get state "status" JNull);
      if negb (eq_str status "running") then
        state ← lift (py_setitem state "status" (JStr "running"));
        state ← lift (py_setitem state "startedAt" (JStr now));
        _ ← persist_state state;
        send_json (ok_reply state) 200
      else send_json (ok_reply state) 200.

(** Lines 279 to 288 of [handle_api_draw]: the state after drawing from
    [remaining]. *)
Definition drawn_state (r : nat) (remaining : gset Z) (state : json)
  : result json :=
  n ← choice r (sorted remaining);
  order ← py_get state "drawnOrder" (JList []);
  drawn ← py_list order;
  let drawn := drawn ++ [JInt n] in
  state ← py_setitem state "drawnOrder" (JList drawn);
  state ← py_setitem state "currentNumber" (JInt n);
  state ← py_setitem state "currentLabel" (JStr (bingo_label n));
  remaining2 ← make_remaining_set state;
  py_setitem state "remainingCount" (JInt (Z.of_nat (size remaining2))).

Definition handle_api_draw (r : nat) : M response :=
  state ← load_latest;
  if is_none state then send_json (error_reply "no event") 400
  else
    running ← lift (require_running state);
    if negb running then send_json (error_reply "not running") 400
    else
      remaining ← lift (make_remaining_set state);
      if decide (remaining = ∅)
      then send_json (error_reply "no remaining numbers") 400
      else
        state ← lift (drawn_state r remaining state);
        _ ← persist_state state;
        send_json (ok_reply state) 200.

(** Lines 310 to 323 of [handle_api_undo]: the state after taking the last
    entry off the non-empty list [drawn]. *)
Definition undone_state (drawn : list json) (state : json) : result json :=
  let drawn := removelast drawn in
  state ← py_setitem state "drawnOrder" (JList drawn);
  state ← match last drawn with
          | Some x =>
              prev ← py_int x;
              state ← py_setitem state "currentNumber" (JInt prev);
              py_setitem state "currentLabel" (JStr (bingo_label prev))
          | None =>
              state ← py_setitem state "currentNumber" JNull;
              py_setitem state "currentLabel" JNull
          end;
  remaining2 ← make_remaining_set state;
  py_setitem state "remainingCount" (JInt (Z.of_nat (size remaining2))).

Definition handle_api_undo : M response :=
  state ← load_latest;
  if is_none state then send_json (error_reply "no event") 400
  else
    running ← lift (require_running state);
    if negb running then send_json (error_reply "not running") 400
    else
      order ← lift (py_get state "drawnOrder" (JList []));
      drawn ← lift (py_list order);
      match drawn with
      | [] => send_json (error_reply "nothing to undo") 400
      | _ :: _ =>
          state ← lift (undone_state drawn state);
          _ ← persist_state state;
          send_json (ok_reply state) 200
      end.

Definition handle_api_end (now : string) : M response :=
  state ← load_latest;
  if is_none state then send_json (error_reply "no event") 400
  else
    status ← lift (py_get state "status" JNull);
    if eq_str status "ended" then send_json (ok_reply state) 200
    else
      state ← lift (py_setitem state "status" (JStr "ended"));
      state ← lift (py_setitem state "endedAt" (JStr now));
      _ ← persist_state state;
      send_json (ok_reply state) 200.

Definition handle_api_reset : M response :=
  _ ← try_except
        (there ← path_exists LATEST_FILE;
         if there : bool then unlink LATEST_FILE else mret ())
        (mret ());
  send_json (JDict [("ok", JBool true)]) 200.

(** [DATA_DIR.resolve() in p.resolve().parents] *)
Definition path_inside_data (p : path) : M bool := λ w,
  (Ok (in_parents (resolve (WEB_DIR w) (DATA_DIR w)) (resolve (WEB_DIR w) p)), w).

Definition handle_api_delete (body : json) : M response :=
  event_file ← lift (py_get body "eventFile" JNull);
  match event_file with
  | JStr f =>
      if negb (str_nonempty f)
      then send_json (error_reply "eventFile is required") 400
      else
        let p := Path f in
        inside ← path_inside_data p;
        if negb inside then send_json (error_reply "invalid path") 400
        else if bool_decide (path_name p = "latest.json")
        then send_json (error_reply "cannot delete latest.json") 400
        else
          there ← path_exists (λ _, p);
          if negb there then send_json (error_reply "file not found") 404
          else
            latest ← load_latest;
            same ← (if py_truthy latest
                    then ef ← lift (py_get latest "eventFile" JNull);
                         mret (eq_str ef (path_str p))
                    else mret false : M bool);
            _ ← (if same : bool
                 then try_except
                        (there ← path_exists LATEST_FILE;
                         if there : bool then unlink LATEST_FILE else mret ())
                        (mret ())
                 else mret ());
            gone ← try_except (_ ← unlink (λ _, p); mret true) (mret false);
            if gone : bool then send_json (JDict [("ok", JBool true)]) 200
            else send_json (error_reply "failed to delete") 500
  | _ => send_json (error_reply "eventFile is required") 400
  end.

(** ** Vocabulary of the statements *)

(** One [POST /api/draw] after the other, the generator giving [rs]. *)
Fixpoint draw_all (rs : list nat) : M (list response) :=
  match rs with
  | [] => mret []
  | r :: rs' =>
      rep ← handle_api_draw r;
      reps ← draw_all rs';
      mret (rep :: reps)
  end.

(** The name of the current-event slot in the file system. *)
Definition latest_key (w : world) : string := fs_key w (LATEST_FILE w).

(** The installation and the permissions are the same in both worlds. *)
Definition same_env (w w' : world) : Prop :=
  app_root w' = app_root w ∧ unwritable w' = unwritable w
  ∧ undeletable w' = undeletable w.

(** The pool when the numbers in [used] are taken: lines 114 and 115. *)
Definition pool (used : list Z) : gset Z :=
  list_to_set (seqZ 1 75) ∖ list_to_set used.

(** The dict that [drawn_state] builds from [d] when [drawnOrder] holds
    [items], of which the numbers [used] count, and [n] is drawn. *)
Definition drawn_dict (d : list (string * json)) (items : list json)
    (used : list Z) (n : Z) : list (string * json) :=
  dict_set
    (dict_set
       (dict_set
          (dict_set d "drawnOrder" (JList (items ++ [JInt n])))
          "currentNumber" (JInt n))
       "currentLabel" (JStr (bingo_label n)))
    "remainingCount" (JInt (Z.of_nat (size (pool (used ++ [n]))))).

(** [POST /api/draw] in [w], the generator giving [r], succeeds and the
    number drawn, [currentNumber] of the state sent back, is [n]. *)
Definition draw_yields (w : world) (r : nat) (n : Z) : Prop :=
  ∃ state' w',
    handle_api_draw r w = (Ok (Response 200 (ok_reply state')), w')
    ∧ py_get state' "currentNumber" JNull = Ok (JInt n).

(** [drawnOrder] of [state], as the handlers read it, is the list [ns] of
    distinct numbers of 1..75. *)
Definition history (state : json) (ns : list Z) : Prop :=
  py_get state "drawnOrder" (JList []) = Ok (JList (JInt <$> ns))
  ∧ NoDup ns
  ∧ Forall (λ n, 1 ≤ n ≤ 75) ns.

(** What [currentNumber] and [currentLabel] are for the history [ns]. *)
Definition current_number (ns : list Z) : json :=
  match last ns with
  | Some n => JInt n
  | None => JNull
  end.

Definition current_label (ns : list Z) : json :=
  match last ns with
  | Some n => JStr (bingo_label n)
  | None => JNull
  end.

(** The invariants of an event whose history is [ns]: the history is
    well formed and the three caches agree with it. *)
Definition event_inv (state : json) (ns : list Z) : Prop :=
  history state ns
  ∧ py_get state "currentNumber" JNull = Ok (current_number ns)
  ∧ py_get state "currentLabel" JNull = Ok (current_label ns)
  ∧ py_get state "remainingCount" JNull = Ok (JInt (75 - Z.of_nat (length ns))).

(** The dict that [undone_state] builds from [d] when the history that is
    left is [ns]. *)
Definition undone_dict (d : list (string * json)) (ns : list Z)
  : list (string * json) :=
  dict_set
    (dict_set
       (dict_set
          (dict_set d "drawnOrder" (JList (JInt <$> ns)))
          "currentNumber" (current_number ns))
       "currentLabel" (current_label ns))
    "remainingCount" (JInt (Z.of_nat (size (pool ns)))).



(** Sample data: an installation with no files and no restrictions, a
    request that creates the event [Party], and the world after it. *)
Definition fresh_world : world := World ["srv"; "BingoApp"] ∅ ∅ ∅.

Definition party_body : json :=
  JDict [("eventName", JStr "Party"); ("winnersTarget", JInt 3)].

Definition party_world : world :=
  snd (handle_api_new party_body "20260209_221530" "2026-02-09T22:15:30"
         fresh_world).

Definition party_file : string :=
  "/srv/BingoApp/data/20260209_221530_Party.json".

Definition party_alias : string :=
  "/srv/BingoApp/data/../data/20260209_221530_Party.json".

(** The event in the current slot ([JNull] when there is none), and its
    fields when it is a dict. *)
Definition slot (w : world) : json :=
  match fst (load_latest w) with
  | Ok state => state
  | Raise _ => JNull
  end.

Definition fields (state : json) : list (string * json) :=
  match state with
  | JDict d => d
  | _ => []
  end.

(** The sample event started, after one draw, and ended; and the world of
    the created event with its archive write-protected. *)
Definition started_world : world :=
  snd (handle_api_start "2026-02-09T22:20:00" party_world).

Definition drawn_world : world := snd (handle_api_draw 7 started_world).

Definition undone_world : world := snd (handle_api_undo drawn_world).

Definition ended_world : world :=
  snd (handle_api_end "2026-02-09T23:00:00" drawn_world).

Definition locked_world : world :=
  World (app_root party_world) (files party_world) {[party_file]} ∅.

(** What [persist_state] does to the files when the current slot can be
    written: the slot first, then the archive named by [eventFile], whose
    failure changes nothing. *)
Definition persisted_files (d : list (string * json)) (w : world)
  : gmap string file :=
  let fs := <[latest_key w := Document (JDict d)]> (files w) in
  match dict_get d "eventFile" with
  | Some (JStr f) =>
      if str_nonempty f then
        if decide (fs_key w (Path f) ∈ unwritable w) then fs
        else <[fs_key w (Path f) := Document (JDict d)]> fs
      else fs
  | _ => fs
  end.

(** The requests of the event engine, and the world they leave, whatever
    they answer. *)
Inductive request : Type :=
  | ReqNew (body : json) (event_id created_at : string)
  | ReqStart (now : string)
  | ReqDraw (r : nat)
  | ReqUndo
  | ReqEnd (now : string).

Definition handle (q : request) : M response :=
  match q with
  | ReqNew body event_id created_at => handle_api_new body event_id created_at
  | ReqStart now => handle_api_start now
  | ReqDraw r => handle_api_draw r
  | ReqUndo => handle_api_undo
  | ReqEnd now => handle_api_end now
  end.

Fixpoint serve (qs : list request) (w : world) : world :=
  match qs with
  | [] => w
  | q :: qs' => serve qs' (snd (handle q w))
  end.

(** There is no current event, or it satisfies the invariants. *)
Definition slot_inv (w : world) : Prop :=
  slot w = JNull ∨ ∃ ns, event_inv (slot w) ns.


(** ** Continuing an archived event *)

(** [p.resolve() == DATA_DIR.resolve()] *)
Definition path_is_data (p : path) : M bool := λ w,
  (Ok (bool_decide (resolve (WEB_DIR w) p = resolve (WEB_DIR w) (DATA_DIR w))), w).

(** [handle_api_use] lets the data directory itself through its path check;
    [main] has created that directory, so it exists, and reading it as a
    file raises. *)
Definition handle_api_use (body : json) : M response :=
  event_file ← lift (py_get body "eventFile" JNull);
  match event_file with
  | JStr f =>
      if negb (str_nonempty f)
      then send_json (error_reply "eventFile is required") 400
      else
        let p := Path f in
        inside ← path_inside_data p;
        is_data ← path_is_data p;
        if negb inside && negb is_data
        then send_json (error_reply "invalid path") 400
        else
          there ← (if is_data : bool then mret true else path_exists (λ _, p));
          if negb there then send_json (error_reply "file not found") 404
          else
            st ← try_except
                   (j ← (if is_data : bool then lift (Raise OSError)
                         else read_json (λ _, p));
                    mret (Some j))
                   (mret None);
            match st with
            | None => send_json (error_reply "failed to read json") 400
            | Some st =>
                _ ← save_latest st;
                send_json (ok_reply st) 200
            end
  | _ => send_json (error_reply "eventFile is required") 400
  end.

(** The characters that [safe_name] keeps. *)
Definition name_char (ch : ascii) : bool :=
  is_alnum ch || Ascii.eqb ch "-" || Ascii.eqb ch "_".

(** A piece of a resolved path: not empty, not [.] or [..], no slash. *)
Definition plain_part (c : string) : Prop :=
  c ≠ "" ∧ c ≠ "." ∧ c ≠ ".." ∧ str_mem "/" c = false.

(** The file name that [new_event] gives the archive. *)
Definition archive_name (event_id event_name : string) : string :=
  event_id +:+ "_" +:+ safe_name event_name +:+ ".json".

(** ** Listing the archived events *)

(** [len(x)] *)
Definition py_len (x : json) : result Z :=
  match x with
  | JList l => Ok (Z.of_nat (length l))
  | JStr s => Ok (Z.of_nat (String.length s))
  | JDict d => Ok (Z.of_nat (length d))
  | _ => Raise TypeError
  end.

(** [name] matches the pattern [*.json]. *)
Definition is_json_name (name : string) : bool :=
  let n := String.length name in
  (5 <=? n)%nat && String.eqb (String.substring (n - 5) 5 name) ".json".

(** The path [DATA_DIR / name]. *)
Definition data_file (name : string) (w : world) : path :=
  path_div (DATA_DIR w) (Path name).

(** The name of the file known as [k], when it lies directly in
    [DATA_DIR]. *)
Definition data_file_name (w : world) (k : string) : option string :=
  let name := path_name (Path k) in
  if decide (k = fs_key w (data_file name w)) then Some name else None.

(** [DATA_DIR.glob("*.json")], by name. *)
Definition glob_json (w : world) : list string :=
  List.filter is_json_name
    (omap (data_file_name w) (fst <$> map_to_list (files w))).

(** One entry of the list that [handle_api_events] sends. *)
Definition event_item (st : json) (event_file file_name : string) : result json :=
  event_id ← py_get st "eventId" JNull;
  event_name ← py_get st "eventName" JNull;
  status ← py_get st "status" JNull;
  created_at ← py_get st "createdAt" JNull;
  started_at ← py_get st "startedAt" JNull;
  ended_at ← py_get st "endedAt" JNull;
  remaining_count ← py_get st "remainingCount" JNull;
  drawn ← py_get st "drawnOrder" JNull;
  draw_count ← py_len (py_or drawn (JList []));
  Ok (JDict [
    ("eventId", event_id);
    ("eventName", event_name);
    ("status", status);
    ("createdAt", created_at);
    ("startedAt", started_at);
    ("endedAt", ended_at);
    ("remainingCount", remaining_count);
    ("drawCount", JInt draw_count);
    ("eventFile", JStr event_file);
    ("fileName", JStr file_name)]).

(** The loop of [handle_api_events] over the sorted names: [latest.json]
    and the files that cannot be read as JSON are passed over. *)
Fixpoint list_events (w : world) (names : list string) : result (list json) :=
  match names with
  | [] => Ok []
  | name :: rest =>
      if bool_decide (name = "latest.json") then list_events w rest
      else
        match files w !! fs_key w (data_file name w) with
        | Some (Document st) =>
            item ← event_item st (path_str (data_file name w)) name;
            items ← list_events w rest;
            Ok (item :: items)
        | _ => list_events w rest
        end
  end.

(** [a] comes before [b] when sorting by name in reverse. *)
Definition name_after (a b : string) : Prop := String.le b a.

#[global] Instance name_after_dec : RelDecision name_after.
Proof. intros a b. unfold name_after. apply _. Defined.

Definition handle_api_events : M response := λ w,
  (items ← lift (list_events w (merge_sort name_after (glob_json w)));
   send_json (JDict [("ok", JBool true); ("events", JList items)]) 200) w.

(** The [fileName] of an entry of the list. *)
Definition item_file_name (item : json) : json :=
  default JNull (dict_get (fields item) "fileName").

(** The names that [handle_api_events] lists: not [latest.json], and the
    file holds a JSON document. *)
Definition listed (w : world) (name : string) : bool :=
  negb (bool_decide (name = "latest.json"))
  && match files w !! fs_key w (data_file name w) with
     | Some (Document _) => true
     | _ => false
     end.

(** ** More sample data *)

(** The answer of a handler, for the samples. *)
Definition reply_of (r : result response * world) : response :=
  match fst r with
  | Ok rep => rep
  | Raise _ => Response 0 JNull
  end.

Definition latest_name : string := "/srv/BingoApp/data/latest.json".

(** The started sample event with a write-protected slot. *)
Definition frozen_world : world :=
  World (app_root started_world) (files started_world) {[latest_name]} ∅.


(** A slot that holds a list, and a slot whose [drawnOrder] is [null]. *)
Definition list_world : world :=
  World ["srv"; "BingoApp"] {[latest_name := Document (JList [])]} ∅ ∅.

Definition null_history : list (string * json) :=
  [("status", JStr "running"); ("drawnOrder", JNull)].

Definition null_history_world : world :=
  World ["srv"; "BingoApp"] {[latest_name := Document (JDict null_history)]} ∅ ∅.

(** The sample event beside an archive that holds a list. *)
Definition odd_world : world :=
  set_files party_world
    (<["/srv/BingoApp/data/odd.json" := Document (JList [])]> (files party_world)).

(** The requests of a whole game. *)
Definition party_game : list request :=
  [ReqNew party_body "20260209_221530" "2026-02-09T22:15:30";
   ReqStart "2026-02-09T22:20:00"; ReqDraw 7; ReqDraw 70; ReqUndo;
   ReqEnd "2026-02-09T23:00:00"; ReqDraw 1].




Definition fs_target : string := String (ascii_of_nat 28) "5".






(** The archive of the sample event, named with two leading slashes. *)
Definition party_slashes : string :=
  "//srv/BingoApp/data/20260209_221530_Party.json".


(* ================================================================== *)
(** * Properties *)

(** ** The monad *)

Lemma bind_ok {A B : Type} (m : M A) (k : A → M B) (w w' : world) (a : A) :
  m w = (Ok a, w') → (m ≫= k) w = k a w'.
Proof. intros H. unfold mbind, M_bind. by rewrite H. Qed.

Lemma bind_raise {A B : Type} (m : M A) (k : A → M B) (w w' : world) (e : exn) :
  m w = (Raise e, w') → (m ≫= k) w = (Raise e, w').
Proof. intros H. unfold mbind, M_bind. by rewrite H. Qed.

Lemma bind_lift {A B : Type} (r : result A) (k : A → M B) (w : world) :
  (lift r ≫= k) w = match r with Ok a => k a w | Raise e => (Raise e, w) end.
Proof. by destruct r. Qed.

Lemma bind_inv {A B : Type} (m : M A) (k : A → M B) (w w' : world) (b : B) :
  (m ≫= k) w = (Ok b, w') → ∃ a w1, m w = (Ok a, w1) ∧ k a w1 = (Ok b, w').
Proof.
  unfold mbind, M_bind. destruct (m w) as [[a|e] w1]; [eauto | done].
Qed.

(** [state[k] = v] steps of a handler, one after the other. *)
Ltac set_items := repeat (rewrite bind_lift; cbn [py_setitem]).

(** ** Dictionaries *)

Lemma dict_get_set_eq (d : list (string * json)) (k : string) (v : json) :
  dict_get (dict_set d k v) k = Some v.
Proof.
  induction d as [|[k' v'] d IH]; simpl.
  - by rewrite decide_True.
  - destruct (decide (k' = k)) as [->|Hne]; simpl.
    + by rewrite decide_True.
    + by rewrite decide_False.
Qed.

Lemma dict_get_set_ne (d : list (string * json)) (k k' : string) (v : json) :
  k ≠ k' → dict_get (dict_set d k v) k' = dict_get d k'.
Proof.
  intros Hne. induction d as [|[k0 v0] d IH]; simpl.
  - by rewrite decide_False.
  - destruct (decide (k0 = k)) as [->|Hne0]; simpl.
    + by rewrite !decide_False.
    + by rewrite IH.
Qed.

Lemma dict_set_same (d : list (string * json)) (k : string) (v : json) :
  dict_get d k = Some v → dict_set d k v = d.
Proof.
  induction d as [|[k0 v0] d IH]; simpl; [done|].
  destruct (decide (k0 = k)) as [->|Hne]; [congruence|].
  intros H. by rewrite IH.
Qed.

(** Fields of a dict after a chain of [dict_set]. *)
Ltac get_field :=
  rewrite ?dict_get_set_ne by done; rewrite ?dict_get_set_eq.

Lemma py_get_dict (d : list (string * json)) (k : string) (dflt : json) :
  py_get (JDict d) k dflt = Ok (default dflt (dict_get d k)).
Proof. done. Qed.

Lemma py_get_ok_dict (x : json) (k : string) (dflt v : json) :
  py_get x k dflt = Ok v → ∃ d, x = JDict d.
Proof. destruct x; try done. eauto. Qed.

(** ** The current-event slot *)

Lemma latest_key_env (w w' : world) :
  app_root w' = app_root w → latest_key w' = latest_key w.
Proof.
  intros H. unfold latest_key, fs_key, LATEST_FILE, DATA_DIR, WEB_DIR, APP_ROOT.
  by rewrite H.
Qed.

Lemma fs_key_env (w w' : world) (p : path) :
  app_root w' = app_root w → fs_key w' p = fs_key w p.
Proof. intros H. unfold fs_key, WEB_DIR, APP_ROOT. by rewrite H. Qed.

Lemma same_env_refl (w : world) : same_env w w.
Proof. done. Qed.

Lemma same_env_trans (w1 w2 w3 : world) :
  same_env w1 w2 → same_env w2 w3 → same_env w1 w3.
Proof. unfold same_env. intros (?&?&?) (?&?&?). split_and!; congruence. Qed.

Lemma load_latest_unfold (w : world) :
  load_latest w =
  (Ok match files w !! latest_key w with
      | Some (Document j) => j
      | _ => JNull
      end, w).
Proof.
  unfold load_latest, mbind, M_bind, path_exists, try_except, read_json.
  change (fs_key w (LATEST_FILE w)) with (latest_key w).
  destruct (files w !! latest_key w) as [[j|]|] eqn:E.
  - rewrite bool_decide_true by eauto. simpl.
    change (fs_key w (LATEST_FILE w)) with (latest_key w). by rewrite E.
  - rewrite bool_decide_true by eauto. simpl.
    change (fs_key w (LATEST_FILE w)) with (latest_key w). by rewrite E.
  - rewrite bool_decide_false; [done|]. by intros [? ?].
Qed.

Lemma load_latest_document (w : world) (j : json) :
  files w !! latest_key w = Some (Document j) → load_latest w = (Ok j, w).
Proof. intros H. by rewrite load_latest_unfold, H. Qed.

Lemma save_latest_unfold (state : json) (w : world) :
  save_latest state w =
  if decide (latest_key w ∈ unwritable w) then (Raise OSError, w)
  else (Ok (), set_files w (<[latest_key w := Document state]> (files w))).
Proof. done. Qed.

Lemma persist_state_unfold (d : list (string * json)) (w : world) :
  persist_state (JDict d) w =
  if decide (latest_key w ∈ unwritable w) then (Raise OSError, w)
  else (Ok (), set_files w (persisted_files d w)).
Proof.
  unfold persist_state, persisted_files, mbind at 1, M_bind.
  rewrite save_latest_unfold.
  destruct (decide (latest_key w ∈ unwritable w)) as [|Hw]; [done|].
  rewrite bind_lift, py_get_dict.
  destruct (dict_get d "eventFile") as [[| | |f| |]|]; simpl; try done.
  destruct (str_nonempty f); [|done].
  unfold try_except, write_json, set_files; simpl.
  change (fs_key (World (app_root w) ?fs (unwritable w) (undeletable w)) ?p)
    with (fs_key w p).
  by destruct (decide (fs_key w (Path f) ∈ unwritable w)).
Qed.

Lemma persisted_files_latest (d : list (string * json)) (w : world) :
  persisted_files d w !! latest_key w = Some (Document (JDict d)).
Proof.
  unfold persisted_files.
  destruct (dict_get d "eventFile") as [[| | |f| |]|];
    try by rewrite lookup_insert_eq.
  destruct (str_nonempty f); [|by rewrite lookup_insert_eq].
  destruct (decide (fs_key w (Path f) ∈ unwritable w));
    [by rewrite lookup_insert_eq|].
  destruct (decide (fs_key w (Path f) = latest_key w)) as [->|Hne].
  - by rewrite lookup_insert_eq.
  - by rewrite lookup_insert_ne, lookup_insert_eq.
Qed.

Lemma persist_state_ok (d : list (string * json)) (w : world) :
  latest_key w ∉ unwritable w →
  ∃ w', persist_state (JDict d) w = (Ok (), w')
        ∧ load_latest w' = (Ok (JDict d), w')
        ∧ files w' = persisted_files d w
        ∧ same_env w w'.
Proof.
  intros Hw. exists (set_files w (persisted_files d w)).
  rewrite persist_state_unfold, decide_False by done.
  split_and!; try done.
  apply load_latest_document.
  change (persisted_files d w !! latest_key w = Some (Document (JDict d))).
  apply persisted_files_latest.
Qed.

Lemma persist_state_inv (d : list (string * json)) (w w' : world) (u : unit) :
  persist_state (JDict d) w = (Ok u, w') →
  (latest_key w ∉ unwritable w)
  ∧ load_latest w' = (Ok (JDict d), w')
  ∧ same_env w w'.
Proof.
  rewrite persist_state_unfold.
  destruct (decide (latest_key w ∈ unwritable w)) as [|Hw]; [done|].
  intros [= _ <-]. split_and!; try done.
  apply load_latest_document.
  change (persisted_files d w !! latest_key w = Some (Document (JDict d))).
  apply persisted_files_latest.
Qed.

Lemma str_nonempty_true (s : string) : s ≠ "" → str_nonempty s = true.
Proof. by destruct s. Qed.

(** ** Persistence *)

(** C7: [persist_state] writes the current-event slot and then the archive
    named by [eventFile]. When the slot has been written, a failing archive
    write is not reported: [persist_state] returns normally and the world is
    the one the slot write left, with the event in the slot; when the
    archive write succeeds the world is the one it leaves. Either way the
    current event is afterwards the persisted one. *)
Theorem persist_state_archive_failure_swallowed
    (d : list (string * json)) (f : string) (w w1 : world) :
  save_latest (JDict d) w = (Ok (), w1) →
  dict_get d "eventFile" = Some (JStr f) →
  f ≠ "" →
  match write_json (λ _, Path f) (JDict d) w1 with
  | (Ok _, w2) => persist_state (JDict d) w = (Ok (), w2)
  | (Raise _, _) => persist_state (JDict d) w = (Ok (), w1)
  end
  ∧ ∀ w', persist_state (JDict d) w = (Ok (), w') →
          load_latest w' = (Ok (JDict d), w').
Proof.
  intros Hsave Hf Hne. split.
  - unfold persist_state. rewrite (bind_ok _ _ _ _ _ Hsave).
    rewrite bind_lift, py_get_dict, Hf. simpl.
    rewrite (str_nonempty_true f Hne). unfold try_except.
    revert Hsave. rewrite save_latest_unfold.
    destruct (decide (latest_key w ∈ unwritable w)); [done|].
    intros [= <-]. unfold write_json.
    destruct (decide (_ ∈ _)); [done|]. by destruct w.
  - intros w' Hp. by apply persist_state_inv in Hp as (_ & ? & _).
Qed.

(** ** Lifecycle *)

(** C4: on an event whose status is [ready] or [ended], a draw is answered
    with the error [not running] and the world, hence every field of the
    event, is what it was. *)
Theorem draw_refused_when_not_running (w : world) (state : json) (r : nat) :
  load_latest w = (Ok state, w) →
  py_get state "status" JNull = Ok (JStr "ready")
  ∨ py_get state "status" JNull = Ok (JStr "ended") →
  handle_api_draw r w = (Ok (Response 400 (error_reply "not running")), w)
  ∧ load_latest w = (Ok state, w).
Proof.
  intros Hload Hst. split; [|done].
  unfold handle_api_draw. rewrite (bind_ok _ _ _ _ _ Hload).
  assert (∃ d, state = JDict d) as [d ->]
    by (destruct Hst as [H|H]; by apply py_get_ok_dict in H).
  cbn [is_none]. rewrite bind_lift. unfold require_running.
  by destruct Hst as [-> | ->].
Qed.

Lemma end_when_ended (w : world) (state : json) (now : string) :
  load_latest w = (Ok state, w) →
  py_get state "status" JNull = Ok (JStr "ended") →
  handle_api_end now w = (Ok (Response 200 (ok_reply state)), w).
Proof.
  intros Hload Hst. unfold handle_api_end. rewrite (bind_ok _ _ _ _ _ Hload).
  destruct (py_get_ok_dict _ _ _ _ Hst) as [d ->].
  cbn [is_none]. by rewrite bind_lift, Hst.
Qed.

(** C6: [end] on an event that is already [ended] answers with the
    unchanged state and changes nothing; so whenever a first [end] has
    answered with a state, a second [end], at whatever later time, answers
    with the very same state (same [endedAt], same [drawnOrder] and
    counters) and leaves the world alone. *)
Theorem end_idempotent (w : world) :
  (∀ state now,
     load_latest w = (Ok state, w) →
     py_get state "status" JNull = Ok (JStr "ended") →
     handle_api_end now w = (Ok (Response 200 (ok_reply state)), w))
  ∧ (∀ now1 now2 state1 w1,
       handle_api_end now1 w = (Ok (Response 200 (ok_reply state1)), w1) →
       handle_api_end now2 w1 = (Ok (Response 200 (ok_reply state1)), w1)).
Proof.
  split; [intros; by apply end_when_ended|].
  intros now1 now2 state1 w1. unfold handle_api_end at 1.
  set (state := match files w !! latest_key w with
                | Some (Document j) => j | _ => JNull end).
  assert (load_latest w = (Ok state, w)) as Hload by apply load_latest_unfold.
  rewrite (bind_ok _ _ w w state) by done.
  destruct state as [| | | | |d] eqn:E; try done.
  cbn [is_none]. rewrite bind_lift, py_get_dict.
  destruct (eq_str (default JNull (dict_get d "status")) "ended") eqn:Hst.
  - intros [= <- <-]. apply end_when_ended; [done|].
    rewrite py_get_dict. destruct (default JNull (dict_get d "status")); try done.
    simpl in Hst. by apply bool_decide_eq_true in Hst as ->.
  - set_items.
    intros H. apply bind_inv in H as (u & w2 & Hp & Hs).
    unfold send_json, mret, M_ret, ok_reply in Hs. injection Hs as <- <-.
    apply persist_state_inv in Hp as (_ & Hload1 & _).
    apply end_when_ended; [done|].
    by rewrite py_get_dict, dict_get_set_ne, dict_get_set_eq.
Qed.

(** ** The number pool *)

Lemma result_bind_ok {A B : Type} (a : A) (f : A → result B) :
  (Ok a ≫= f) = f a.
Proof. done. Qed.

Lemma map_result_app {A B : Type} (f : A → result B) (xs ys : list A)
    (xs' ys' : list B) :
  map_result f xs = Ok xs' → map_result f ys = Ok ys' →
  map_result f (xs ++ ys) = Ok (xs' ++ ys').
Proof.
  revert xs'. induction xs as [|x xs IH]; intros xs'; simpl.
  - by intros [= <-].
  - destruct (f x) as [y|]; [|done]. simpl.
    destruct (map_result f xs) as [zs|]; [|done]. simpl.
    intros [= <-] Hys. by rewrite (IH zs eq_refl Hys).
Qed.

Lemma map_result_ints (ns : list Z) : map_result py_int (JInt <$> ns) = Ok ns.
Proof.
  induction ns as [|n ns IH]; [done|].
  rewrite fmap_cons. cbn [map_result py_int]. by rewrite result_bind_ok, IH.
Qed.

Lemma filter_counts_ints (ns : list Z) :
  filter (λ x, counts x) (JInt <$> ns) = JInt <$> ns.
Proof.
  induction ns as [|n ns IH]; [done|].
  rewrite fmap_cons, filter_cons_True by done. by rewrite IH.
Qed.

Lemma make_remaining_set_dict (d : list (string * json)) :
  make_remaining_set (JDict d) =
  items ← py_list (default (JList []) (dict_get d "drawnOrder"));
  used ← map_result py_int (filter (λ x, counts x) items);
  Ok (pool used).
Proof. done. Qed.

Lemma make_remaining_set_inv (state : json) (X : gset Z) :
  make_remaining_set state = Ok X →
  ∃ d items used,
    state = JDict d
    ∧ py_list (default (JList []) (dict_get d "drawnOrder")) = Ok items
    ∧ map_result py_int (filter (λ x, counts x) items) = Ok used
    ∧ X = pool used.
Proof.
  destruct state as [| | | | |d]; try done.
  rewrite make_remaining_set_dict.
  destruct (py_list _) as [items|] eqn:Hi; [|done].
  rewrite result_bind_ok.
  destruct (map_result _ _) as [used|] eqn:Hu; [|done].
  rewrite result_bind_ok. intros [= <-]. by exists d, items, used.
Qed.

Lemma make_remaining_set_ints (d : list (string * json)) (ns : list Z) :
  dict_get d "drawnOrder" = Some (JList (JInt <$> ns)) →
  make_remaining_set (JDict d) = Ok (pool ns).
Proof.
  intros H. rewrite make_remaining_set_dict, H. simpl.
  by rewrite filter_counts_ints, map_result_ints.
Qed.

Lemma elem_of_pool (n : Z) (used : list Z) :
  n ∈ pool used ↔ (1 ≤ n ≤ 75) ∧ n ∉ used.
Proof.
  unfold pool. rewrite elem_of_difference, !elem_of_list_to_set, elem_of_seqZ.
  intuition lia.
Qed.

Lemma pool_size (ns : list Z) :
  NoDup ns → Forall (λ n, 1 ≤ n ≤ 75) ns →
  size (pool ns) = (75 - length ns)%nat.
Proof.
  intros Hnd Hr. unfold pool. rewrite size_difference.
  - rewrite !size_list_to_set by (done || apply NoDup_seqZ).
    by rewrite length_seqZ.
  - intros n. rewrite !elem_of_list_to_set, elem_of_seqZ.
    intros Hn. rewrite Forall_forall in Hr. specialize (Hr n Hn). lia.
Qed.

Lemma sorted_perm (X : gset Z) : sorted X ≡ₚ elements X.
Proof. apply merge_sort_Permutation. Qed.

Lemma elem_of_sorted (n : Z) (X : gset Z) : n ∈ sorted X ↔ n ∈ X.
Proof. by rewrite sorted_perm, elem_of_elements. Qed.

Lemma NoDup_sorted (X : gset Z) : NoDup (sorted X).
Proof. rewrite sorted_perm. apply NoDup_elements. Qed.

Lemma length_sorted (X : gset Z) : length (sorted X) = size X.
Proof. by rewrite sorted_perm. Qed.

Lemma choice_lookup (r : nat) (l : list Z) (n : Z) :
  choice r l = Ok n ↔ l ≠ [] ∧ l !! (r mod length l)%nat = Some n.
Proof.
  destruct l as [|x l]; [split; [done|by intros []]|].
  unfold choice. set (i := (r mod length (x :: l))%nat).
  assert (i < length (x :: l))%nat as Hi by (by apply Nat.mod_upper_bound).
  apply lookup_lt_is_Some_2 in Hi as [y Hy].
  rewrite nth_lookup, Hy. simpl. split.
  - by intros [= ->].
  - by intros [_ [= ->]].
Qed.

Lemma choice_in_pool (r : nat) (X : gset Z) :
  X ≠ ∅ → ∃ n, choice r (sorted X) = Ok n ∧ n ∈ X.
Proof.
  intros HX.
  assert (sorted X ≠ []) as Hne.
  { intros H. apply HX, leibniz_equiv, size_empty_inv.
    by rewrite <-length_sorted, H. }
  destruct (lookup_lt_is_Some_2 (sorted X) (r mod length (sorted X))%nat)
    as [n Hn].
  { apply Nat.mod_upper_bound. by destruct (sorted X). }
  exists n. split; [by apply choice_lookup|].
  apply elem_of_sorted. by eapply list_elem_of_lookup_2.
Qed.

(** ** Drawing *)

Lemma drawn_state_ok (d : list (string * json)) (items : list json)
    (used : list Z) (r : nat) (X : gset Z) (n : Z) :
  py_list (default (JList []) (dict_get d "drawnOrder")) = Ok items →
  map_result py_int (filter (λ x, counts x) items) = Ok used →
  choice r (sorted X) = Ok n →
  drawn_state r X (JDict d) = Ok (JDict (drawn_dict d items used n)).
Proof.
  intros Hl Hu Hc. unfold drawn_state.
  rewrite Hc, result_bind_ok, py_get_dict, result_bind_ok, Hl, result_bind_ok.
  do 3 (cbn [py_setitem]; rewrite result_bind_ok).
  rewrite make_remaining_set_dict.
  rewrite !dict_get_set_ne, dict_get_set_eq by done.
  cbn [default from_option id py_list]. rewrite result_bind_ok, filter_app.
  rewrite (filter_cons_True _ (JInt n)), filter_nil by done.
  by rewrite (map_result_app py_int _ [JInt n] used [n] Hu eq_refl),
    result_bind_ok.
Qed.

Lemma current_event (w : world) : ∃ state, load_latest w = (Ok state, w).
Proof. eexists. apply load_latest_unfold. Qed.

(** Everything a successful draw tells. *)
Lemma handle_api_draw_inv (r : nat) (w w' : world) (state' : json) :
  handle_api_draw r w = (Ok (Response 200 (ok_reply state')), w') →
  ∃ d items used n,
    load_latest w = (Ok (JDict d), w)
    ∧ require_running (JDict d) = Ok true
    ∧ py_list (default (JList []) (dict_get d "drawnOrder")) = Ok items
    ∧ map_result py_int (filter (λ x, counts x) items) = Ok used
    ∧ choice r (sorted (pool used)) = Ok n
    ∧ n ∈ pool used
    ∧ state' = JDict (drawn_dict d items used n)
    ∧ (latest_key w ∉ unwritable w)
    ∧ load_latest w' = (Ok state', w')
    ∧ same_env w w'.
Proof.
  destruct (current_event w) as [state Hload].
  unfold handle_api_draw. rewrite (bind_ok _ _ _ _ _ Hload).
  destruct state as [| | | | |d]; try done.
  cbn [is_none]. rewrite bind_lift.
  destruct (require_running (JDict d)) as [[]|] eqn:Hrun; try done.
  cbn [negb]. rewrite bind_lift.
  destruct (make_remaining_set (JDict d)) as [X|] eqn:HX; [|done].
  destruct (make_remaining_set_inv _ _ HX) as (d0 & items & used & [= <-] & Hl & Hu & ->).
  destruct (decide (pool used = ∅)) as [|Hne]; [done|].
  destruct (choice_in_pool r _ Hne) as (n & Hc & Hn).
  rewrite bind_lift, (drawn_state_ok d items used r _ n Hl Hu Hc).
  intros H. apply bind_inv in H as (u & w1 & Hp & Hs).
  unfold send_json, mret, M_ret, ok_reply in Hs. injection Hs as <- <-.
  apply persist_state_inv in Hp as (Hw & Hload' & Henv).
  by exists d, items, used, n.
Qed.

(** A draw goes through on a running event with a non-empty pool whose
    slot can be written. *)
Lemma handle_api_draw_ok (r : nat) (w : world) (d : list (string * json))
    (items : list json) (used : list Z) :
  load_latest w = (Ok (JDict d), w) →
  require_running (JDict d) = Ok true →
  py_list (default (JList []) (dict_get d "drawnOrder")) = Ok items →
  map_result py_int (filter (λ x, counts x) items) = Ok used →
  pool used ≠ ∅ →
  latest_key w ∉ unwritable w →
  ∃ n w',
    choice r (sorted (pool used)) = Ok n
    ∧ n ∈ pool used
    ∧ handle_api_draw r w
      = (Ok (Response 200 (ok_reply (JDict (drawn_dict d items used n)))), w')
    ∧ load_latest w' = (Ok (JDict (drawn_dict d items used n)), w')
    ∧ same_env w w'.
Proof.
  intros Hload Hrun Hl Hu Hne Hw.
  destruct (choice_in_pool r _ Hne) as (n & Hc & Hn).
  destruct (persist_state_ok (drawn_dict d items used n) w Hw)
    as (w' & Hp & Hload' & _ & Henv).
  exists n, w'. split_and!; try done.
  unfold handle_api_draw. rewrite (bind_ok _ _ _ _ _ Hload).
  cbn [is_none]. rewrite bind_lift, Hrun. cbn [negb].
  rewrite bind_lift, make_remaining_set_dict, Hl, result_bind_ok, Hu,
    result_bind_ok.
  rewrite decide_False by done.
  rewrite bind_lift, (drawn_state_ok d items used r _ n Hl Hu Hc).
  by rewrite (bind_ok _ _ _ _ _ Hp).
Qed.

Lemma drawn_dict_order (d : list (string * json)) (items : list json)
    (used : list Z) (n : Z) :
  dict_get (drawn_dict d items used n) "drawnOrder"
  = Some (JList (items ++ [JInt n])).
Proof.
  unfold drawn_dict. by get_field.
Qed.

Lemma drawn_dict_number (d : list (string * json)) (items : list json)
    (used : list Z) (n : Z) :
  dict_get (drawn_dict d items used n) "currentNumber" = Some (JInt n).
Proof.
  unfold drawn_dict. by get_field.
Qed.

Lemma drawn_dict_label (d : list (string * json)) (items : list json)
    (used : list Z) (n : Z) :
  dict_get (drawn_dict d items used n) "currentLabel"
  = Some (JStr (bingo_label n)).
Proof.
  unfold drawn_dict. by get_field.
Qed.

Lemma drawn_dict_count (d : list (string * json)) (items : list json)
    (used : list Z) (n : Z) :
  dict_get (drawn_dict d items used n) "remainingCount"
  = Some (JInt (Z.of_nat (size (pool (used ++ [n]))))).
Proof. unfold drawn_dict. by rewrite dict_get_set_eq. Qed.

Lemma drawn_dict_other (d : list (string * json)) (items : list json)
    (used : list Z) (n : Z) (k : string) :
  k ≠ "drawnOrder" → k ≠ "currentNumber" → k ≠ "currentLabel" →
  k ≠ "remainingCount" →
  dict_get (drawn_dict d items used n) k = dict_get d k.
Proof.
  intros. unfold drawn_dict. by rewrite !dict_get_set_ne by done.
Qed.

Lemma draw_yields_inv (w : world) (d : list (string * json))
    (items : list json) (used : list Z) (r : nat) (n : Z) :
  load_latest w = (Ok (JDict d), w) →
  py_list (default (JList []) (dict_get d "drawnOrder")) = Ok items →
  map_result py_int (filter (λ x, counts x) items) = Ok used →
  draw_yields w r n →
  choice r (sorted (pool used)) = Ok n.
Proof.
  intros Hload Hl Hu (state' & w' & Hd & Hn).
  apply handle_api_draw_inv in Hd
    as (d' & items' & used' & n' & Hload' & _ & Hl' & Hu' & Hc & _ & -> & _).
  rewrite Hload in Hload'. injection Hload' as <-.
  rewrite Hl in Hl'. injection Hl' as <-.
  rewrite Hu in Hu'. injection Hu' as <-.
  rewrite py_get_dict, drawn_dict_number in Hn. by injection Hn as <-.
Qed.

(** C5: on a running event with a non-empty pool, a draw with the generator
    value [r] gives the number [n] exactly when [n] is the entry of the
    sorted pool at the index [r mod size pool]. The sorted pool lists every
    number of the pool once and nothing else, so the candidates are the
    [size pool] numbers of the pool, one at each index: equally likely
    indices give equally likely numbers. *)
Theorem draw_uniform_over_pool (w : world) (state : json) (X : gset Z) :
  load_latest w = (Ok state, w) →
  require_running state = Ok true →
  make_remaining_set state = Ok X →
  X ≠ ∅ →
  latest_key w ∉ unwritable w →
  (∀ r n, draw_yields w r n ↔ sorted X !! (r mod size X)%nat = Some n)
  ∧ NoDup (sorted X)
  ∧ length (sorted X) = size X
  ∧ (∀ n, n ∈ sorted X ↔ n ∈ X).
Proof.
  intros Hload Hrun HX Hne Hw.
  destruct (make_remaining_set_inv _ _ HX) as (d & items & used & -> & Hl & Hu & ->).
  split_and!.
  - intros r n. split.
    + intros Hy.
      apply (draw_yields_inv w d items used r n Hload Hl Hu) in Hy.
      apply choice_lookup in Hy as [_ Hy].
      by rewrite length_sorted in Hy.
    + intros Hi.
      destruct (handle_api_draw_ok r w d items used Hload Hrun Hl Hu Hne Hw)
        as (n' & w' & Hc & Hn & Hd & _).
      apply choice_lookup in Hc as [_ Hc].
      rewrite length_sorted, Hi in Hc. injection Hc as <-.
      eexists _, w'. split; [exact Hd|].
      by rewrite py_get_dict, drawn_dict_number.
  - apply NoDup_sorted.
  - apply length_sorted.
  - intros n. apply elem_of_sorted.
Qed.

Lemma history_inv (d : list (string * json)) (ns : list Z) :
  history (JDict d) ns →
  py_list (default (JList []) (dict_get d "drawnOrder")) = Ok (JInt <$> ns)
  ∧ map_result py_int (filter (λ x, counts x) (JInt <$> ns)) = Ok ns.
Proof.
  intros (Hd & _ & _). rewrite py_get_dict in Hd. injection Hd as ->.
  split; [done|]. by rewrite filter_counts_ints, map_result_ints.
Qed.

Lemma history_length (state : json) (ns : list Z) :
  history state ns → (length ns ≤ 75)%nat.
Proof.
  intros (_ & Hnd & Hr).
  change 75%nat with (Z.to_nat 75). rewrite <-(length_seqZ 1 75).
  apply submseteq_length, NoDup_submseteq; [done|].
  intros n Hn. rewrite Forall_forall in Hr. apply elem_of_seqZ.
  specialize (Hr n Hn). lia.
Qed.

Lemma history_snoc (state state' : json) (ns : list Z) (n : Z) :
  history state ns → n ∈ pool ns →
  py_get state' "drawnOrder" (JList []) = Ok (JList (JInt <$> (ns ++ [n]))) →
  history state' (ns ++ [n]).
Proof.
  intros (_ & Hnd & Hr) [Hn1 Hn2]%elem_of_pool Hd. split_and!; [done| |].
  - apply NoDup_app. split_and!; [done| |apply NoDup_singleton].
    intros x Hx ->%list_elem_of_singleton. done.
  - apply Forall_app. split; [done|]. by apply Forall_singleton.
Qed.

(** C3: after every successful draw on an event whose [drawnOrder] holds
    distinct numbers of 1..75, [remainingCount] is 75 minus the length of
    [drawnOrder], and the pool computed from the new [drawnOrder] has
    exactly [remainingCount] numbers. *)
Theorem draw_remaining_count (r : nat) (w w' : world) (state state' : json)
    (ns : list Z) :
  load_latest w = (Ok state, w) →
  history state ns →
  handle_api_draw r w = (Ok (Response 200 (ok_reply state')), w') →
  ∃ (ns' : list Z) (X' : gset Z),
    history state' ns'
    ∧ length ns' = S (length ns)
    ∧ py_get state' "remainingCount" JNull = Ok (JInt (75 - Z.of_nat (length ns')))
    ∧ make_remaining_set state' = Ok X'
    ∧ Z.of_nat (size X') = 75 - Z.of_nat (length ns').
Proof.
  intros Hload Hh Hd.
  apply handle_api_draw_inv in Hd
    as (d & items & used & n & Hload' & _ & Hl & Hu & _ & Hn & -> & _).
  rewrite Hload in Hload'. injection Hload' as ->.
  destruct (history_inv d ns Hh) as [Hl' Hu'].
  rewrite Hl' in Hl. injection Hl as <-.
  rewrite Hu' in Hu. injection Hu as <-.
  assert (history (JDict (drawn_dict d (JInt <$> ns) ns n)) (ns ++ [n])) as Hh'.
  { apply (history_snoc (JDict d)); [done..|].
    by rewrite py_get_dict, drawn_dict_order, fmap_app. }
  pose proof (history_length _ _ Hh') as Hlen.
  assert (size (pool (ns ++ [n])) = (75 - length (ns ++ [n]))%nat) as Hsz
    by (apply pool_size; apply Hh').
  exists (ns ++ [n]), (pool (ns ++ [n])). split_and!.
  - done.
  - rewrite length_app. simpl. lia.
  - rewrite py_get_dict, drawn_dict_count, Hsz. simpl. do 2 f_equal. lia.
  - apply make_remaining_set_ints.
    by rewrite drawn_dict_order, fmap_app.
  - rewrite Hsz. lia.
Qed.

(** ** Undoing *)

Lemma undone_state_ok (d : list (string * json)) (ns : list Z) (n : Z) :
  undone_state (JInt <$> (ns ++ [n])) (JDict d) = Ok (JDict (undone_dict d ns)).
Proof.
  unfold undone_state, undone_dict, current_number, current_label.
  rewrite fmap_app. change (JInt <$> [n]) with [JInt n].
  rewrite removelast_last. cbn [py_setitem]. rewrite result_bind_ok.
  rewrite fmap_last. destruct (last ns) as [m|]; cbn [fmap option_fmap option_map].
  - cbn [py_int]. rewrite result_bind_ok.
    do 2 (cbn [py_setitem]; rewrite result_bind_ok).
    rewrite (make_remaining_set_ints _ ns), result_bind_ok; [done|].
    rewrite !dict_get_set_ne by done. by rewrite dict_get_set_eq.
  - do 2 (cbn [py_setitem]; rewrite result_bind_ok).
    rewrite (make_remaining_set_ints _ ns), result_bind_ok; [done|].
    rewrite !dict_get_set_ne by done. by rewrite dict_get_set_eq.
Qed.

Lemma handle_api_undo_ok (w : world) (d : list (string * json)) (ns : list Z)
    (n : Z) :
  load_latest w = (Ok (JDict d), w) →
  require_running (JDict d) = Ok true →
  dict_get d "drawnOrder" = Some (JList (JInt <$> (ns ++ [n]))) →
  latest_key w ∉ unwritable w →
  ∃ w',
    handle_api_undo w = (Ok (Response 200 (ok_reply (JDict (undone_dict d ns)))), w')
    ∧ load_latest w' = (Ok (JDict (undone_dict d ns)), w')
    ∧ same_env w w'.
Proof.
  intros Hload Hrun Hd Hw.
  destruct (persist_state_ok (undone_dict d ns) w Hw)
    as (w' & Hp & Hload' & _ & Henv).
  exists w'. split_and!; try done.
  unfold handle_api_undo. rewrite (bind_ok _ _ _ _ _ Hload).
  cbn [is_none]. rewrite bind_lift, Hrun. cbn [negb].
  rewrite bind_lift, py_get_dict, Hd. cbn [default from_option id].
  rewrite bind_lift. cbn [py_list].
  destruct (JInt <$> (ns ++ [n])) as [|x xs] eqn:E.
  { apply (f_equal length) in E. rewrite length_fmap, length_app in E.
    simpl in E. lia. }
  rewrite <-E, bind_lift, undone_state_ok.
  by rewrite (bind_ok _ _ _ _ _ Hp).
Qed.

Lemma undone_dict_fields (d : list (string * json)) (ns : list Z) :
  dict_get (undone_dict d ns) "drawnOrder" = Some (JList (JInt <$> ns))
  ∧ dict_get (undone_dict d ns) "currentNumber" = Some (current_number ns)
  ∧ dict_get (undone_dict d ns) "currentLabel" = Some (current_label ns)
  ∧ dict_get (undone_dict d ns) "remainingCount"
    = Some (JInt (Z.of_nat (size (pool ns)))).
Proof.
  unfold undone_dict. split_and!; rewrite ?dict_get_set_ne by done;
    by rewrite dict_get_set_eq.
Qed.

Lemma undone_dict_other (d : list (string * json)) (ns : list Z) (k : string) :
  k ≠ "drawnOrder" → k ≠ "currentNumber" → k ≠ "currentLabel" →
  k ≠ "remainingCount" →
  dict_get (undone_dict d ns) k = dict_get d k.
Proof. intros. unfold undone_dict. by rewrite !dict_get_set_ne by done. Qed.

Lemma require_running_dict (d : list (string * json)) :
  require_running (JDict d)
  = Ok (eq_str (default JNull (dict_get d "status")) "running").
Proof. done. Qed.

(** C2: on an event that satisfies its invariants, whenever a draw has
    succeeded the undo that follows succeeds too and puts [drawnOrder],
    [currentNumber], [currentLabel] and [remainingCount] back to the values
    they had before the draw. *)
Theorem undo_after_draw_restores (r : nat) (w w1 : world)
    (state state1 : json) (ns : list Z) :
  load_latest w = (Ok state, w) →
  event_inv state ns →
  handle_api_draw r w = (Ok (Response 200 (ok_reply state1)), w1) →
  ∃ state2 w2,
    handle_api_undo w1 = (Ok (Response 200 (ok_reply state2)), w2)
    ∧ load_latest w2 = (Ok state2, w2)
    ∧ py_get state2 "drawnOrder" (JList []) = py_get state "drawnOrder" (JList [])
    ∧ py_get state2 "currentNumber" JNull = py_get state "currentNumber" JNull
    ∧ py_get state2 "currentLabel" JNull = py_get state "currentLabel" JNull
    ∧ py_get state2 "remainingCount" JNull = py_get state "remainingCount" JNull.
Proof.
  intros Hload (Hh & Hnum & Hlab & Hcnt) Hd.
  apply handle_api_draw_inv in Hd
    as (d & items & used & n & Hload' & Hrun & Hl & Hu & _ & Hn & -> & Hw
        & Hload1 & Henv).
  rewrite Hload in Hload'. injection Hload' as ->.
  destruct (history_inv d ns Hh) as [Hl' Hu'].
  rewrite Hl' in Hl. injection Hl as <-.
  rewrite Hu' in Hu. injection Hu as <-.
  set (d1 := drawn_dict d (JInt <$> ns) ns n) in *.
  destruct (handle_api_undo_ok w1 d1 ns n) as (w2 & Hundo & Hload2 & _).
  - done.
  - rewrite require_running_dict. unfold d1.
    rewrite drawn_dict_other by done. by rewrite <-require_running_dict.
  - unfold d1. by rewrite drawn_dict_order, fmap_app.
  - destruct Henv as (Hroot & Hun & _).
    by rewrite (latest_key_env _ _ Hroot), Hun.
  - exists (JDict (undone_dict d1 ns)), w2.
    destruct (undone_dict_fields d1 ns) as (E1 & E2 & E3 & E4).
    pose proof (history_length (JDict d) ns Hh) as Hlen.
    destruct Hh as (Hord & Hnd & Hr).
    rewrite Hord, Hnum, Hlab, Hcnt, !py_get_dict, E1, E2, E3, E4.
    split_and!; try done.
    rewrite pool_size by done. simpl. do 2 f_equal. lia.
Qed.

(** ** Creating and starting *)

Lemma new_event_inv (name : string) (target : Z) (event_id created_at : string)
    (w w1 : world) (state : json) :
  new_event name target event_id created_at w = (Ok state, w1) →
  ∃ d,
    state = JDict d
    ∧ load_latest w1 = (Ok state, w1)
    ∧ (latest_key w1 ∉ unwritable w1)
    ∧ same_env w w1
    ∧ dict_get d "eventName" = Some (JStr name)
    ∧ dict_get d "winnersTarget" = Some (JInt target)
    ∧ dict_get d "status" = Some (JStr "ready")
    ∧ dict_get d "drawnOrder" = Some (JList [])
    ∧ dict_get d "currentNumber" = Some JNull
    ∧ dict_get d "currentLabel" = Some JNull
    ∧ dict_get d "remainingCount" = Some (JInt 75).
Proof.
  unfold new_event. intros H.
  apply bind_inv in H as (u1 & wa & Hw1 & H).
  apply bind_inv in H as (u2 & wb & Hw2 & H).
  unfold mret, M_ret in H. injection H as <- <-.
  rewrite save_latest_unfold in Hw2.
  destruct (decide (latest_key wa ∈ unwritable wa)) as [|Hwa]; [done|].
  injection Hw2 as _ <-.
  unfold write_json in Hw1. destruct (decide (_ ∈ _)); [done|].
  injection Hw1 as _ <-.
  eexists. split; [reflexivity|]. split_and!; try done.
  apply load_latest_document. apply lookup_insert_eq.
Qed.

Lemma handle_api_start_ready (now : string) (w : world)
    (d : list (string * json)) :
  load_latest w = (Ok (JDict d), w) →
  dict_get d "status" = Some (JStr "ready") →
  latest_key w ∉ unwritable w →
  let d' := dict_set (dict_set d "status" (JStr "running")) "startedAt" (JStr now) in
  ∃ w',
    handle_api_start now w = (Ok (Response 200 (ok_reply (JDict d'))), w')
    ∧ load_latest w' = (Ok (JDict d'), w')
    ∧ same_env w w'.
Proof.
  intros Hload Hst Hw d'.
  destruct (persist_state_ok d' w Hw) as (w' & Hp & Hload' & _ & Henv).
  exists w'. split_and!; try done.
  unfold handle_api_start. rewrite (bind_ok _ _ _ _ _ Hload).
  cbn [is_none]. rewrite bind_lift, py_get_dict, Hst.
  cbn [default from_option id].
  change (eq_str (JStr "ready") "ended") with false. cbv iota.
  rewrite bind_lift.
  change (eq_str (JStr "ready") "running") with false. cbn [negb].
  set_items.
  by rewrite (bind_ok _ _ _ _ _ Hp).
Qed.

(** ** Drawing until the pool is empty *)

Lemma unwritable_env (w w' : world) :
  same_env w w' → latest_key w ∉ unwritable w → latest_key w' ∉ unwritable w'.
Proof. intros (Hroot & Hun & _). by rewrite (latest_key_env _ _ Hroot), Hun. Qed.

Lemma draw_all_ok (rs : list nat) :
  ∀ (w : world) (d : list (string * json)) (ns : list Z),
    load_latest w = (Ok (JDict d), w) →
    require_running (JDict d) = Ok true →
    history (JDict d) ns →
    (length ns + length rs ≤ 75)%nat →
    latest_key w ∉ unwritable w →
    ∃ reps w' d' ns',
      draw_all rs w = (Ok reps, w')
      ∧ Forall (λ rep, code rep = 200) reps
      ∧ length reps = length rs
      ∧ load_latest w' = (Ok (JDict d'), w')
      ∧ require_running (JDict d') = Ok true
      ∧ history (JDict d') ns'
      ∧ length ns' = (length ns + length rs)%nat
      ∧ same_env w w'.
Proof.
  induction rs as [|r rs IH]; intros w d ns Hload Hrun Hh Hlen Hw.
  - exists [], w, d, ns. split_and!; done.
  - destruct (history_inv d ns Hh) as [Hl Hu].
    assert (pool ns ≠ ∅) as Hne.
    { intros E. pose proof (pool_size ns (proj1 (proj2 Hh)) (proj2 (proj2 Hh))) as Hs.
      rewrite E, size_empty in Hs. simpl in Hlen. lia. }
    destruct (handle_api_draw_ok r w d _ ns Hload Hrun Hl Hu Hne Hw)
      as (n & w1 & _ & Hn & Hd & Hload1 & Henv1).
    set (d1 := drawn_dict d (JInt <$> ns) ns n) in *.
    assert (history (JDict d1) (ns ++ [n])) as Hh1.
    { apply (history_snoc (JDict d)); [done..|].
      unfold d1. by rewrite py_get_dict, drawn_dict_order, fmap_app. }
    destruct (IH w1 d1 (ns ++ [n])) as (reps & w' & d' & ns' & Hall & Hcodes
                                        & Hlr & Hload' & Hrun' & Hh' & Hlen' & Henv').
    + done.
    + rewrite require_running_dict. unfold d1.
      rewrite drawn_dict_other by done. by rewrite <-require_running_dict.
    + done.
    + rewrite length_app. simpl in *. lia.
    + by apply (unwritable_env w).
    + exists (Response 200 (ok_reply (JDict d1)) :: reps), w', d', ns'.
      split_and!; try done.
      * cbn [draw_all]. rewrite (bind_ok _ _ _ _ _ Hd).
        by rewrite (bind_ok _ _ _ _ _ Hall).
      * by constructor.
      * simpl. by rewrite Hlr.
      * rewrite Hlen', length_app. simpl. lia.
      * by apply (same_env_trans w w1 w').
Qed.

Lemma history_full (state : json) (ns : list Z) :
  history state ns → length ns = 75%nat → ns ≡ₚ seqZ 1 75 ∧ pool ns = ∅.
Proof.
  intros (_ & Hnd & Hr) Hlen.
  assert (ns ≡ₚ seqZ 1 75) as Hperm.
  { apply submseteq_length_Permutation.
    - apply NoDup_submseteq; [done|]. intros n Hn.
      rewrite Forall_forall in Hr. apply elem_of_seqZ. specialize (Hr n Hn). lia.
    - by rewrite length_seqZ, Hlen. }
  split; [done|]. apply leibniz_equiv, size_empty_inv.
  rewrite pool_size by done. lia.
Qed.

Lemma handle_api_draw_exhausted (r : nat) (w : world)
    (d : list (string * json)) (ns : list Z) :
  load_latest w = (Ok (JDict d), w) →
  require_running (JDict d) = Ok true →
  history (JDict d) ns →
  length ns = 75%nat →
  handle_api_draw r w
  = (Ok (Response 400 (error_reply "no remaining numbers")), w).
Proof.
  intros Hload Hrun Hh Hlen.
  destruct (history_inv d ns Hh) as [Hl Hu].
  destruct (history_full _ _ Hh Hlen) as [_ He].
  unfold handle_api_draw. rewrite (bind_ok _ _ _ _ _ Hload).
  cbn [is_none]. rewrite bind_lift, Hrun. cbn [negb].
  rewrite bind_lift, make_remaining_set_dict, Hl, result_bind_ok, Hu,
    result_bind_ok.
  by rewrite decide_True.
Qed.

Lemma handle_api_new_inv (body : json) (event_id created_at : string)
    (w w1 : world) (rep : response) :
  handle_api_new body event_id created_at w = (Ok rep, w1) →
  ∃ name target,
    py_get body "eventName" (JStr "") = Ok name
    ∧ (t ← py_get body "winnersTarget" (JInt 0); py_int (py_or t (JInt 0)))
      = Ok target
    ∧ ∃ state,
        new_event (str_or (strip (py_str name)) "BingoEvent")
                  (if target <? 0 then 0 else target) event_id created_at w
        = (Ok state, w1)
        ∧ rep = Response 200 (ok_reply state).
Proof.
  unfold handle_api_new. rewrite bind_lift.
  destruct (py_get body "eventName" (JStr "")) as [name|]; [|done].
  rewrite bind_lift.
  destruct (py_get body "winnersTarget" (JInt 0)) as [t|]; [|done].
  rewrite bind_lift, result_bind_ok.
  destruct (py_int (py_or t (JInt 0))) as [target|]; [|done].
  intros H. apply bind_inv in H as (state & w2 & Hnew & Hs).
  unfold send_json, mret, M_ret in Hs. injection Hs as <- <-.
  exists name, target. split_and!; try done. by exists state.
Qed.

(** C1: once an event has been created and started, 75 draws in a row all
    succeed whatever the generator gives, and leave a [drawnOrder] that is
    a permutation of 1..75: every number once, none twice, none missing.
    One more draw, whatever the generator gives, is answered with the error
    [no remaining numbers] and changes nothing, so [drawnOrder] keeps its
    75 entries. *)
Theorem draws_until_exhaustion (body : json) (event_id created_at now : string)
    (rs : list nat) (w0 w1 : world) (rep0 : response) :
  handle_api_new body event_id created_at w0 = (Ok rep0, w1) →
  length rs = 75%nat →
  ∃ (state1 : json) (w2 : world) (reps : list response) (w3 : world)
    (state3 : json) (ns : list Z),
    handle_api_start now w1 = (Ok (Response 200 (ok_reply state1)), w2)
    ∧ draw_all rs w2 = (Ok reps, w3)
    ∧ length reps = 75%nat
    ∧ Forall (λ rep, code rep = 200) reps
    ∧ load_latest w3 = (Ok state3, w3)
    ∧ py_get state3 "drawnOrder" (JList []) = Ok (JList (JInt <$> ns))
    ∧ ns ≡ₚ seqZ 1 75
    ∧ length ns = 75%nat
    ∧ ∀ r, handle_api_draw r w3
           = (Ok (Response 400 (error_reply "no remaining numbers")), w3).
Proof.
  intros Hnew Hlen.
  apply handle_api_new_inv in Hnew as (name & target & _ & _ & state & Hnew & _).
  apply new_event_inv in Hnew
    as (d & -> & Hload1 & Hw1 & _ & _ & _ & Hst & Hord & _).
  destruct (handle_api_start_ready now w1 d Hload1 Hst Hw1)
    as (w2 & Hstart & Hload2 & Henv2).
  set (d2 := dict_set (dict_set d "status" (JStr "running")) "startedAt" (JStr now))
    in *.
  assert (require_running (JDict d2) = Ok true) as Hrun2.
  { rewrite require_running_dict. unfold d2.
    by rewrite dict_get_set_ne, dict_get_set_eq. }
  assert (history (JDict d2) []) as Hh2.
  { split_and!; [|constructor|constructor].
    rewrite py_get_dict. unfold d2. by rewrite !dict_get_set_ne, Hord. }
  destruct (draw_all_ok rs w2 d2 [] Hload2 Hrun2 Hh2)
    as (reps & w3 & d3 & ns & Hall & Hcodes & Hlr & Hload3 & Hrun3 & Hh3
        & Hlen3 & _).
  { simpl. lia. }
  { by apply (unwritable_env w1). }
  simpl in Hlen3. rewrite Hlen in Hlen3.
  exists (JDict d2), w2, reps, w3, (JDict d3), ns.
  split_and!; try done.
  - by rewrite Hlr.
  - apply Hh3.
  - by apply (history_full (JDict d3)).
  - intros r. by apply (handle_api_draw_exhausted r w3 d3 ns).
Qed.

(** ** Replacing the current state *)



(** ** Reading integers *)







(** ** Creating an event *)



Lemma str_or_nonempty (a b : string) : b ≠ "" → str_or a b ≠ "".
Proof. intros Hb. unfold str_or. by destruct a. Qed.


(** ** Deleting an archived event *)

Example delete_by_stored_name_clears_slot :
  ∃ w',
    handle_api_delete (JDict [("eventFile", JStr party_file)]) party_world
    = (Ok (Response 200 (JDict [("ok", JBool true)])), w')
    ∧ load_latest w' = (Ok JNull, w')
    ∧ path_exists (λ _, Path party_file) w' = (Ok false, w').
Proof. eexists. split_and!; vm_compute; reflexivity. Qed.

(** C8 at an input where the code breaks it: the current slot names its
    archive by [party_file]; a delete request that names the same file by
    [party_alias] is accepted and the file is removed, yet the slot is kept
    and goes on naming the file that is no longer there. *)
Theorem delete_by_alias_leaves_dangling_slot :
  ∃ state w',
    load_latest party_world = (Ok state, party_world)
    ∧ py_get state "eventFile" JNull = Ok (JStr party_file)
    ∧ path_exists (λ _, Path party_file) party_world = (Ok true, party_world)
    ∧ fs_key party_world (Path party_alias) = fs_key party_world (Path party_file)
    ∧ handle_api_delete (JDict [("eventFile", JStr party_alias)]) party_world
      = (Ok (Response 200 (JDict [("ok", JBool true)])), w')
    ∧ load_latest w' = (Ok state, w')
    ∧ path_exists (λ _, Path party_file) w' = (Ok false, w').
Proof. eexists _, _. split_and!; vm_compute; reflexivity. Qed.

(** ** The engine keeps the invariants of the current event *)

Lemma slot_load (w : world) : load_latest w = (Ok (slot w), w).
Proof. unfold slot. by rewrite load_latest_unfold. Qed.

Lemma slot_set_files (w : world) (fs : gmap string file) (j : json) :
  fs !! latest_key w = Some (Document j) → slot (set_files w fs) = j.
Proof.
  intros H. unfold slot. by rewrite (load_latest_document (set_files w fs) j).
Qed.

Lemma slot_set_files_ne (w : world) (k : string) (f : file) :
  k ≠ latest_key w → slot (set_files w (<[k := f]> (files w))) = slot w.
Proof.
  intros Hne. unfold slot. rewrite !load_latest_unfold. simpl.
  change (latest_key (set_files w (<[k:=f]> (files w)))) with (latest_key w).
  by rewrite lookup_insert_ne.
Qed.

Lemma event_inv_same_fields (d d' : list (string * json)) (ns : list Z) :
  dict_get d' "drawnOrder" = dict_get d "drawnOrder" →
  dict_get d' "currentNumber" = dict_get d "currentNumber" →
  dict_get d' "currentLabel" = dict_get d "currentLabel" →
  dict_get d' "remainingCount" = dict_get d "remainingCount" →
  event_inv (JDict d) ns → event_inv (JDict d') ns.
Proof.
  unfold event_inv, history. rewrite !py_get_dict.
  by intros -> -> -> ->.
Qed.

Lemma current_number_snoc (ns : list Z) (n : Z) :
  current_number (ns ++ [n]) = JInt n.
Proof. unfold current_number. by rewrite last_snoc. Qed.

Lemma current_label_snoc (ns : list Z) (n : Z) :
  current_label (ns ++ [n]) = JStr (bingo_label n).
Proof. unfold current_label. by rewrite last_snoc. Qed.

Lemma event_inv_drawn (d : list (string * json)) (ns : list Z) (n : Z) :
  event_inv (JDict d) ns → n ∈ pool ns →
  event_inv (JDict (drawn_dict d (JInt <$> ns) ns n)) (ns ++ [n]).
Proof.
  intros (Hh & _) Hn.
  assert (history (JDict (drawn_dict d (JInt <$> ns) ns n)) (ns ++ [n])) as Hh'.
  { apply (history_snoc (JDict d)); [done..|].
    by rewrite py_get_dict, drawn_dict_order, fmap_app. }
  pose proof (history_length _ _ Hh') as Hlen.
  split; [done|]. rewrite !py_get_dict.
  rewrite drawn_dict_number, drawn_dict_label, drawn_dict_count.
  rewrite current_number_snoc, current_label_snoc.
  split_and!; try done.
  rewrite pool_size by apply Hh'. simpl. do 2 f_equal. lia.
Qed.

Lemma event_inv_undone (d : list (string * json)) (ns : list Z) (n : Z) :
  event_inv (JDict d) (ns ++ [n]) → event_inv (JDict (undone_dict d ns)) ns.
Proof.
  intros ((_ & Hnd & Hr) & _).
  apply NoDup_app in Hnd as (Hnd & _ & _). apply Forall_app in Hr as [Hr _].
  destruct (undone_dict_fields d ns) as (E1 & E2 & E3 & E4).
  assert (history (JDict (undone_dict d ns)) ns) as Hh
    by (split_and!; [by rewrite py_get_dict, E1|done..]).
  pose proof (history_length _ _ Hh) as Hlen.
  split; [done|]. rewrite !py_get_dict, E2, E3, E4.
  split_and!; try done.
  rewrite pool_size by done. simpl. do 2 f_equal. lia.
Qed.

(** Opens handler [h] on the event in the slot of [w]. *)
Ltac on_slot h w :=
  unfold h; rewrite (bind_ok _ _ _ _ _ (slot_load w)).

(** A handler that ends by persisting a state that satisfies the
    invariants leaves a world whose slot satisfies them. *)
Lemma slot_inv_persist {A : Type} (d : list (string * json)) (ns : list Z)
    (k : unit → M A) (w : world) :
  slot_inv w → event_inv (JDict d) ns →
  (∀ u w', snd (k u w') = w') →
  slot_inv (snd ((persist_state (JDict d) ≫= k) w)).
Proof.
  intros Hw Hd Hk. unfold mbind, M_bind. rewrite persist_state_unfold.
  destruct (decide (latest_key w ∈ unwritable w)); [done|].
  rewrite Hk. right. exists ns.
  by rewrite (slot_set_files w _ (JDict d)) by apply persisted_files_latest.
Qed.

Lemma slot_inv_draw (r : nat) (w : world) :
  slot_inv w → slot_inv (snd (handle_api_draw r w)).
Proof.
  intros Hw. on_slot handle_api_draw w.
  destruct (slot w) as [| | | | |d] eqn:Hs; try done.
  cbn [is_none]. rewrite bind_lift.
  destruct (require_running (JDict d)) as [[]|]; try done.
  cbn [negb]. rewrite bind_lift.
  destruct (make_remaining_set (JDict d)) as [X|] eqn:HX; [|done].
  destruct (make_remaining_set_inv _ _ HX)
    as (d0 & items & used & [= <-] & Hl & Hu & ->).
  destruct (decide (pool used = ∅)) as [|Hne]; [done|].
  destruct (choice_in_pool r _ Hne) as (n & Hc & Hn).
  rewrite bind_lift, (drawn_state_ok d items used r _ n Hl Hu Hc).
  destruct Hw as [Hnull|[ns Hinv]]; [by rewrite Hs in Hnull|].
  rewrite Hs in Hinv. destruct (history_inv d ns (proj1 Hinv)) as [Hl' Hu'].
  rewrite Hl' in Hl. injection Hl as <-.
  rewrite Hu' in Hu. injection Hu as <-.
  apply (slot_inv_persist _ (ns ++ [n])); [|by apply event_inv_drawn|done].
  right. exists ns. by rewrite Hs.
Qed.

Lemma slot_inv_undo (w : world) : slot_inv w → slot_inv (snd (handle_api_undo w)).
Proof.
  intros Hw. on_slot handle_api_undo w.
  destruct (slot w) as [| | | | |d] eqn:Hs; try done.
  cbn [is_none]. rewrite bind_lift.
  destruct (require_running (JDict d)) as [[]|]; try done.
  cbn [negb].
  destruct Hw as [Hnull|[ns Hinv]]; [by rewrite Hs in Hnull|].
  rewrite Hs in Hinv. destruct (history_inv d ns (proj1 Hinv)) as [Hl _].
  rewrite bind_lift, py_get_dict, bind_lift, Hl.
  destruct ns as [|m ns _] using rev_ind;
    [change (slot_inv w); right; exists []; by rewrite Hs|].
  destruct (JInt <$> (ns ++ [m])) as [|x xs] eqn:E.
  { apply (f_equal length) in E. rewrite length_fmap, length_app in E.
    simpl in E. lia. }
  rewrite <-E, bind_lift, undone_state_ok.
  apply (slot_inv_persist _ ns); [|by apply (event_inv_undone d ns m)|done].
  right. exists (ns ++ [m]). by rewrite Hs.
Qed.

Lemma slot_inv_start (now : string) (w : world) :
  slot_inv w → slot_inv (snd (handle_api_start now w)).
Proof.
  intros Hw. on_slot handle_api_start w.
  destruct (slot w) as [| | | | |d] eqn:Hs; try done.
  cbn [is_none]. rewrite bind_lift, py_get_dict.
  destruct (eq_str _ "ended"); [done|].
  rewrite bind_lift. destruct (eq_str _ "running"); [done|].
  cbn [negb]. set_items.
  destruct Hw as [Hnull|[ns Hinv]]; [by rewrite Hs in Hnull|].
  rewrite Hs in Hinv.
  apply (slot_inv_persist _ ns); [by right; exists ns; rewrite Hs| |done].
  apply (event_inv_same_fields d); [..|done];
    by rewrite !dict_get_set_ne by done.
Qed.

Lemma slot_inv_end (now : string) (w : world) :
  slot_inv w → slot_inv (snd (handle_api_end now w)).
Proof.
  intros Hw. on_slot handle_api_end w.
  destruct (slot w) as [| | | | |d] eqn:Hs; try done.
  cbn [is_none]. rewrite bind_lift, py_get_dict.
  destruct (eq_str _ "ended"); [done|].
  set_items.
  destruct Hw as [Hnull|[ns Hinv]]; [by rewrite Hs in Hnull|].
  rewrite Hs in Hinv.
  apply (slot_inv_persist _ ns); [by right; exists ns; rewrite Hs| |done].
  apply (event_inv_same_fields d); [..|done];
    by rewrite !dict_get_set_ne by done.
Qed.

Lemma slot_inv_new (body : json) (event_id created_at : string) (w : world) :
  slot_inv w → slot_inv (snd (handle_api_new body event_id created_at w)).
Proof.
  intros Hw.
  destruct (handle_api_new body event_id created_at w) as [[rep|e] w1] eqn:H.
  - apply handle_api_new_inv in H as (n & t & _ & _ & state & Hnew & _).
    apply new_event_inv in Hnew
      as (d & -> & Hload & _ & _ & _ & _ & _ & Hord & Hnum & Hlab & Hcnt).
    change (slot_inv w1). right. exists []. unfold slot. rewrite Hload.
    cbn [fst].
    unfold event_inv, history. rewrite !py_get_dict, Hord, Hnum, Hlab, Hcnt.
    split_and!; try done; constructor.
  - revert H. unfold handle_api_new. rewrite bind_lift.
    destruct (py_get body "eventName" (JStr "")) as [name|]; [|by intros [= _ <-]].
    rewrite bind_lift.
    destruct (py_get body "winnersTarget" (JInt 0)) as [t|]; [|by intros [= _ <-]].
    rewrite bind_lift.
    destruct (py_int (py_or t (JInt 0))) as [target|]; [|by intros [= _ <-]].
    unfold mbind at 1, M_bind at 1, new_event.
    unfold mbind at 1, M_bind at 1, write_json at 1.
    destruct (decide (_ ∈ unwritable w)) as [|Hk]; [by intros [= _ <-]|].
    unfold mbind at 1, M_bind at 1. rewrite save_latest_unfold.
    destruct (decide (_ ∈ _)) as [Hl|]; [|done].
    intros [= _ <-]. cbn [snd]. unfold slot_inv.
    rewrite slot_set_files_ne; [done|].
    intros E. apply Hk. rewrite E. exact Hl.
Qed.

(** Every world that the engine reaches from a world whose current event
    satisfies the invariants, or that has none, is such a world again. *)
Lemma engine_keeps_invariants (qs : list request) (w : world) :
  slot_inv w → slot_inv (serve qs w).
Proof.
  revert w. induction qs as [|q qs IH]; intros w Hw; [done|].
  simpl. apply IH. destruct q; simpl.
  - by apply slot_inv_new.
  - by apply slot_inv_start.
  - by apply slot_inv_draw.
  - by apply slot_inv_undo.
  - by apply slot_inv_end.
Qed.

Lemma no_event_slot_inv (w : world) :
  files w !! latest_key w = None → slot_inv w.
Proof. intros H. left. unfold slot. by rewrite load_latest_unfold, H. Qed.

(* ================================================================== *)
(** * Further properties of the handlers *)

(** ** No current event *)

Lemma load_latest_absent (w : world) :
  files w !! latest_key w = None
  ∨ files w !! latest_key w = Some Garbage
  ∨ files w !! latest_key w = Some (Document JNull) →
  load_latest w = (Ok JNull, w).
Proof. rewrite load_latest_unfold. by intros [->|[->| ->]]. Qed.

(** When [latest.json] is missing, unreadable or holds [null], there is no
    current event: [GET /api/state] answers with the state [null], and
    start, draw, undo and end answer [no event]; none of them changes
    anything. *)
Theorem no_event_refused (w : world) (now : string) (r : nat) :
  files w !! latest_key w = None
  ∨ files w !! latest_key w = Some Garbage
  ∨ files w !! latest_key w = Some (Document JNull) →
  handle_api_state w = (Ok (Response 200 (ok_reply JNull)), w)
  ∧ handle_api_start now w = (Ok (Response 400 (error_reply "no event")), w)
  ∧ handle_api_draw r w = (Ok (Response 400 (error_reply "no event")), w)
  ∧ handle_api_undo w = (Ok (Response 400 (error_reply "no event")), w)
  ∧ handle_api_end now w = (Ok (Response 400 (error_reply "no event")), w).
Proof.
  intros H. apply load_latest_absent in H.
  unfold handle_api_state, handle_api_start, handle_api_draw, handle_api_undo,
    handle_api_end.
  by rewrite !(bind_ok _ _ _ _ _ H).
Qed.

(** ** Start and end *)

(** Starting an event whose status is neither [ended] nor [running] (a
    missing status included) makes it [running] with [startedAt] the time
    of the request, stores it, and keeps every other field. *)
Theorem start_sets_running (now : string) (w : world) (d : list (string * json)) :
  load_latest w = (Ok (JDict d), w) →
  eq_str (default JNull (dict_get d "status")) "ended" = false →
  eq_str (default JNull (dict_get d "status")) "running" = false →
  latest_key w ∉ unwritable w →
  ∃ d' w',
    handle_api_start now w = (Ok (Response 200 (ok_reply (JDict d'))), w')
    ∧ load_latest w' = (Ok (JDict d'), w')
    ∧ dict_get d' "status" = Some (JStr "running")
    ∧ dict_get d' "startedAt" = Some (JStr now)
    ∧ ∀ k, k ≠ "status" → k ≠ "startedAt" → dict_get d' k = dict_get d k.
Proof.
  intros Hload He Hr Hw.
  set (d' := dict_set (dict_set d "status" (JStr "running")) "startedAt" (JStr now)).
  destruct (persist_state_ok d' w Hw) as (w' & Hp & Hload' & _).
  exists d', w'. split_and!; try done.
  - unfold handle_api_start. rewrite (bind_ok _ _ _ _ _ Hload).
    cbn [is_none]. rewrite bind_lift, py_get_dict. cbv iota beta.
    rewrite He, bind_lift. cbv iota beta. rewrite Hr.
    cbn [negb]. set_items. by rewrite (bind_ok _ _ _ _ _ Hp).
  - unfold d'. by get_field.
  - unfold d'. by get_field.
  - intros k H1 H2. unfold d'. by rewrite !dict_get_set_ne.
Qed.

(** Starting a running event answers with the stored state and writes
    nothing, so [startedAt] is the one of the first start. *)
Theorem start_when_running_is_noop (now : string) (w : world) (state : json) :
  load_latest w = (Ok state, w) →
  py_get state "status" JNull = Ok (JStr "running") →
  handle_api_start now w = (Ok (Response 200 (ok_reply state)), w).
Proof.
  intros Hload Hst. destruct (py_get_ok_dict _ _ _ _ Hst) as [d ->].
  unfold handle_api_start. rewrite (bind_ok _ _ _ _ _ Hload).
  cbn [is_none]. rewrite bind_lift, Hst.
  change (eq_str (JStr "running") "ended") with false. cbv iota beta.
  by rewrite bind_lift.
Qed.

(** Ending an event that is not [ended] makes it [ended] with [endedAt] the
    time of the request, stores it, and keeps every other field:
    [drawnOrder], the current number and the counters stay. *)
Theorem end_sets_ended (now : string) (w : world) (d : list (string * json)) :
  load_latest w = (Ok (JDict d), w) →
  eq_str (default JNull (dict_get d "status")) "ended" = false →
  latest_key w ∉ unwritable w →
  ∃ d' w',
    handle_api_end now w = (Ok (Response 200 (ok_reply (JDict d'))), w')
    ∧ load_latest w' = (Ok (JDict d'), w')
    ∧ dict_get d' "status" = Some (JStr "ended")
    ∧ dict_get d' "endedAt" = Some (JStr now)
    ∧ ∀ k, k ≠ "status" → k ≠ "endedAt" → dict_get d' k = dict_get d k.
Proof.
  intros Hload He Hw.
  set (d' := dict_set (dict_set d "status" (JStr "ended")) "endedAt" (JStr now)).
  destruct (persist_state_ok d' w Hw) as (w' & Hp & Hload' & _).
  exists d', w'. split_and!; try done.
  - unfold handle_api_end. rewrite (bind_ok _ _ _ _ _ Hload).
    cbn [is_none]. rewrite bind_lift, py_get_dict. cbv iota beta.
    rewrite He. set_items. by rewrite (bind_ok _ _ _ _ _ Hp).
  - unfold d'. by get_field.
  - unfold d'. by get_field.
  - intros k H1 H2. unfold d'. by rewrite !dict_get_set_ne.
Qed.

Lemma handle_api_draw_not_running (r : nat) (w : world) (state : json) :
  load_latest w = (Ok state, w) →
  require_running state = Ok false →
  handle_api_draw r w = (Ok (Response 400 (error_reply "not running")), w).
Proof.
  intros Hload Hrun. unfold handle_api_draw. rewrite (bind_ok _ _ _ _ _ Hload).
  destruct state; try done. cbn [is_none]. by rewrite bind_lift, Hrun.
Qed.

Lemma handle_api_undo_not_running (w : world) (state : json) :
  load_latest w = (Ok state, w) →
  require_running state = Ok false →
  handle_api_undo w = (Ok (Response 400 (error_reply "not running")), w).
Proof.
  intros Hload Hrun. unfold handle_api_undo. rewrite (bind_ok _ _ _ _ _ Hload).
  destruct state; try done. cbn [is_none]. by rewrite bind_lift, Hrun.
Qed.

(** [ended] is final: on an ended event start is refused with
    [event ended], draw and undo with [not running], end answers with the
    stored state, and none of the four changes anything. *)
Theorem ended_is_terminal (w : world) (state : json) (now : string) (r : nat) :
  load_latest w = (Ok state, w) →
  py_get state "status" JNull = Ok (JStr "ended") →
  handle_api_start now w = (Ok (Response 400 (error_reply "event ended")), w)
  ∧ handle_api_draw r w = (Ok (Response 400 (error_reply "not running")), w)
  ∧ handle_api_undo w = (Ok (Response 400 (error_reply "not running")), w)
  ∧ handle_api_end now w = (Ok (Response 200 (ok_reply state)), w).
Proof.
  intros Hload Hst. destruct (py_get_ok_dict _ _ _ _ Hst) as [d ->].
  assert (require_running (JDict d) = Ok false) as Hrun
    by (unfold require_running; by rewrite Hst).
  split_and!.
  - unfold handle_api_start. rewrite (bind_ok _ _ _ _ _ Hload).
    cbn [is_none]. by rewrite bind_lift, Hst.
  - by apply (handle_api_draw_not_running r w (JDict d)).
  - by apply (handle_api_undo_not_running w (JDict d)).
  - by apply end_when_ended.
Qed.

(** ** Undo *)

(** Undo is refused with [not running] unless the event is running, and
    with [nothing to undo] when a running event has an empty [drawnOrder]
    (or none); the world stays as it is. *)
Theorem undo_refused (w : world) (state : json) :
  load_latest w = (Ok state, w) →
  (require_running state = Ok false →
   handle_api_undo w = (Ok (Response 400 (error_reply "not running")), w))
  ∧ (require_running state = Ok true →
     (s ← py_get state "drawnOrder" (JList []); py_list s) = Ok [] →
     handle_api_undo w = (Ok (Response 400 (error_reply "nothing to undo")), w)).
Proof.
  intros Hload. split; [by apply (handle_api_undo_not_running w state)|].
  intros Hrun Hl. unfold handle_api_undo. rewrite (bind_ok _ _ _ _ _ Hload).
  destruct state as [| | | | |d]; try done.
  cbn [is_none]. rewrite bind_lift, Hrun. cbn [negb].
  rewrite py_get_dict, result_bind_ok in Hl.
  by rewrite bind_lift, py_get_dict, bind_lift, Hl.
Qed.

(** On a running event that satisfies the invariants and has drawn
    [ns ++ [n]], undo succeeds, the stored event has the history [ns] and
    satisfies the invariants again, the number [n] is back in the pool, and
    the fields other than the four that undo recomputes are kept. *)
Theorem undo_drops_last (w : world) (d : list (string * json)) (ns : list Z)
    (n : Z) :
  load_latest w = (Ok (JDict d), w) →
  require_running (JDict d) = Ok true →
  event_inv (JDict d) (ns ++ [n]) →
  latest_key w ∉ unwritable w →
  ∃ d' w' X,
    handle_api_undo w = (Ok (Response 200 (ok_reply (JDict d'))), w')
    ∧ load_latest w' = (Ok (JDict d'), w')
    ∧ event_inv (JDict d') ns
    ∧ make_remaining_set (JDict d') = Ok X
    ∧ n ∈ X
    ∧ ∀ k, k ≠ "drawnOrder" → k ≠ "currentNumber" → k ≠ "currentLabel" →
           k ≠ "remainingCount" → dict_get d' k = dict_get d k.
Proof.
  intros Hload Hrun Hinv Hw.
  pose proof Hinv as ((Hord & Hnd & Hr) & _).
  rewrite py_get_dict in Hord.
  assert (dict_get d "drawnOrder" = Some (JList (JInt <$> (ns ++ [n])))) as Hd.
  { destruct (dict_get d "drawnOrder") as [x|] eqn:E; simpl in Hord.
    - by injection Hord as ->.
    - injection Hord as Hord. apply (f_equal length) in Hord.
      rewrite length_fmap, length_app in Hord. simpl in Hord. lia. }
  destruct (handle_api_undo_ok w d ns n Hload Hrun Hd Hw) as (w' & Hu & Hload' & _).
  exists (undone_dict d ns), w', (pool ns). split_and!; try done.
  - by apply (event_inv_undone d ns n).
  - apply make_remaining_set_ints. apply undone_dict_fields.
  - apply elem_of_pool. apply NoDup_app in Hnd as (_ & Hnot & _).
    apply Forall_app in Hr as [_ Hn]. apply Forall_inv in Hn.
    split; [exact Hn|]. intros Hin. apply (Hnot n Hin).
    by apply list_elem_of_singleton.
  - intros k ????. by apply undone_dict_other.
Qed.

(** ** Draw *)

Lemma map_result_elem {A B : Type} (f : A → result B) (xs : list A)
    (ys : list B) (x : A) :
  map_result f xs = Ok ys → x ∈ xs → ∃ y, f x = Ok y ∧ y ∈ ys.
Proof.
  revert ys. induction xs as [|x0 xs IH]; intros ys Hm Hx.
  - by apply not_elem_of_nil in Hx.
  - simpl in Hm. destruct (f x0) as [y0|] eqn:E0; [|done].
    rewrite result_bind_ok in Hm.
    destruct (map_result f xs) as [zs|]; [|done].
    rewrite result_bind_ok in Hm. injection Hm as <-.
    apply elem_of_cons in Hx as [->|Hx].
    + exists y0. split; [done|]. apply elem_of_cons. by left.
    + destruct (IH zs eq_refl Hx) as (y & ? & ?).
      exists y. split; [done|]. apply elem_of_cons. by right.
Qed.

Lemma pool_snoc_size (used : list Z) (n : Z) :
  1 ≤ n ≤ 75 → (size (pool (used ++ [n])) ≤ 74)%nat.
Proof.
  intros Hn.
  assert (pool (used ++ [n]) ⊆ list_to_set (seqZ 1 75) ∖ {[n]}) as Hsub.
  { intros m. rewrite elem_of_pool, elem_of_difference, elem_of_list_to_set,
      elem_of_seqZ, elem_of_singleton, elem_of_app, list_elem_of_singleton.
    intuition lia. }
  apply subseteq_size in Hsub. rewrite size_difference in Hsub.
  - rewrite size_singleton, size_list_to_set, length_seqZ in Hsub
      by apply NoDup_seqZ. lia.
  - intros m ->%elem_of_singleton. apply elem_of_list_to_set, elem_of_seqZ. lia.
Qed.

(** Whatever the stored event looks like, a successful draw keeps the
    entries of [drawnOrder] in their order and adds one number at the end:
    a number of 1..75 that is not among the entries. It becomes
    [currentNumber], its label [currentLabel], [remainingCount] is an
    integer from 0 to 74, every other field is kept, and what is sent back
    is what is stored. *)
Theorem draw_appends_fresh_number (r : nat) (w w' : world) (state' : json) :
  handle_api_draw r w = (Ok (Response 200 (ok_reply state')), w') →
  ∃ d items n d',
    load_latest w = (Ok (JDict d), w)
    ∧ py_list (default (JList []) (dict_get d "drawnOrder")) = Ok items
    ∧ state' = JDict d'
    ∧ load_latest w' = (Ok state', w')
    ∧ dict_get d' "drawnOrder" = Some (JList (items ++ [JInt n]))
    ∧ 1 ≤ n ≤ 75
    ∧ (JInt n ∉ items)
    ∧ dict_get d' "currentNumber" = Some (JInt n)
    ∧ dict_get d' "currentLabel" = Some (JStr (bingo_label n))
    ∧ (∃ c, dict_get d' "remainingCount" = Some (JInt c) ∧ 0 ≤ c ≤ 74)
    ∧ ∀ k, k ≠ "drawnOrder" → k ≠ "currentNumber" → k ≠ "currentLabel" →
           k ≠ "remainingCount" → dict_get d' k = dict_get d k.
Proof.
  intros H. apply handle_api_draw_inv in H
    as (d & items & used & n & Hload & _ & Hl & Hu & _ & Hn & -> & _ & Hload' & _).
  apply elem_of_pool in Hn as [Hr Hn].
  exists d, items, n, (drawn_dict d items used n).
  split_and!; try done; try lia.
  - apply drawn_dict_order.
  - intros Hin. apply Hn.
    destruct (map_result_elem py_int _ used (JInt n) Hu) as (y & [= <-] & Hy);
      [|done].
    apply list_elem_of_filter. split; [exact I|done].
  - apply drawn_dict_number.
  - apply drawn_dict_label.
  - eexists. split; [apply drawn_dict_count|].
    pose proof (pool_snoc_size used n Hr). lia.
  - intros k ????. by apply drawn_dict_other.
Qed.

(** ** A slot that cannot be written *)

Lemma persist_state_read_only (state : json) (w : world) :
  latest_key w ∈ unwritable w → persist_state state w = (Raise OSError, w).
Proof.
  intros Hw. unfold persist_state, mbind, M_bind.
  by rewrite save_latest_unfold, decide_True.
Qed.

Lemma snd_bind_lift {A B : Type} (r : result A) (k : A → M B) (w : world) :
  (∀ a, snd (k a w) = w) → snd ((lift r ≫= k) w) = w.
Proof. intros Hk. rewrite bind_lift. by destruct r. Qed.

Lemma snd_bind_load {B : Type} (k : json → M B) (w : world) :
  (∀ state, snd (k state w) = w) → snd ((load_latest ≫= k) w) = w.
Proof. intros Hk. by rewrite (bind_ok _ _ _ _ _ (slot_load w)). Qed.

Lemma snd_bind_persist {B : Type} (state : json) (k : unit → M B) (w : world) :
  latest_key w ∈ unwritable w → snd ((persist_state state ≫= k) w) = w.
Proof.
  intros Hw. by rewrite (bind_raise _ _ _ _ _ (persist_state_read_only state w Hw)).
Qed.

(** When [latest.json] cannot be written, start, draw, undo and end change
    nothing at all: the archive of the event is never written unless the
    current slot has been written first. *)
Theorem read_only_slot_blocks_engine (w : world) (now : string) (r : nat) :
  latest_key w ∈ unwritable w →
  snd (handle_api_start now w) = w
  ∧ snd (handle_api_draw r w) = w
  ∧ snd (handle_api_undo w) = w
  ∧ snd (handle_api_end now w) = w.
Proof.
  intros Hw. split_and!.
  - unfold handle_api_start. apply snd_bind_load. intros state.
    destruct (is_none state); [done|]. apply snd_bind_lift. intros s1.
    destruct (eq_str s1 "ended"); [done|]. apply snd_bind_lift. intros s2.
    destruct (negb (eq_str s2 "running")); [|done].
    apply snd_bind_lift. intros st1. apply snd_bind_lift. intros st2.
    by apply snd_bind_persist.
  - unfold handle_api_draw. apply snd_bind_load. intros state.
    destruct (is_none state); [done|]. apply snd_bind_lift. intros b.
    destruct (negb b); [done|]. apply snd_bind_lift. intros X.
    destruct (decide (X = ∅)); [done|]. apply snd_bind_lift. intros st.
    by apply snd_bind_persist.
  - unfold handle_api_undo. apply snd_bind_load. intros state.
    destruct (is_none state); [done|]. apply snd_bind_lift. intros b.
    destruct (negb b); [done|]. apply snd_bind_lift. intros o.
    apply snd_bind_lift. intros [|x xs]; [done|].
    apply snd_bind_lift. intros st. by apply snd_bind_persist.
  - unfold handle_api_end. apply snd_bind_load. intros state.
    destruct (is_none state); [done|]. apply snd_bind_lift. intros s1.
    destruct (eq_str s1 "ended"); [done|].
    apply snd_bind_lift. intros st1. apply snd_bind_lift. intros st2.
    by apply snd_bind_persist.
Qed.

(** ** The two copies of an event *)

(** When both the slot and the archive named by [eventFile] can be written,
    [persist_state] leaves the same document in both, and no other file is
    touched. *)
Theorem persist_state_copies_agree (d : list (string * json)) (f : string)
    (w : world) :
  dict_get d "eventFile" = Some (JStr f) →
  f ≠ "" →
  latest_key w ∉ unwritable w →
  fs_key w (Path f) ∉ unwritable w →
  ∃ w',
    persist_state (JDict d) w = (Ok (), w')
    ∧ load_latest w' = (Ok (JDict d), w')
    ∧ read_json (λ _, Path f) w' = (Ok (JDict d), w')
    ∧ ∀ k, k ≠ latest_key w → k ≠ fs_key w (Path f) →
           files w' !! k = files w !! k.
Proof.
  intros Hf Hne Hw Ha.
  destruct (persist_state_ok d w Hw) as (w' & Hp & Hload & Hfiles & Hroot & _).
  exists w'. split_and!; try done.
  - unfold read_json. rewrite (fs_key_env _ _ _ Hroot), Hfiles.
    unfold persisted_files. rewrite Hf, (str_nonempty_true f Hne), decide_False by done.
    by rewrite lookup_insert_eq.
  - intros k H1 H2. rewrite Hfiles. unfold persisted_files.
    rewrite Hf, (str_nonempty_true f Hne), decide_False by done.
    by rewrite !lookup_insert_ne.
Qed.

(** ** Reset *)

(** [POST /api/reset] always answers [ok]. It touches no file other than
    [latest.json]; when that file can be removed there is no current event
    afterwards, and when it cannot the failure is swallowed and the world
    is as before. *)
Theorem reset_clears_slot_only (w : world) :
  ∃ w',
    handle_api_reset w = (Ok (Response 200 (JDict [("ok", JBool true)])), w')
    ∧ same_env w w'
    ∧ (∀ k, k ≠ latest_key w → files w' !! k = files w !! k)
    ∧ (latest_key w ∉ undeletable w → load_latest w' = (Ok JNull, w'))
    ∧ (latest_key w ∈ undeletable w → w' = w).
Proof.
  unfold handle_api_reset, try_except, mbind, M_bind, path_exists, unlink,
    send_json, mret, M_ret.
  change (fs_key w (LATEST_FILE w)) with (latest_key w).
  destruct (files w !! latest_key w) as [f|] eqn:E.
  - rewrite bool_decide_true by eauto.
    change (fs_key w (LATEST_FILE w)) with (latest_key w). rewrite E.
    destruct (decide (latest_key w ∈ undeletable w)).
    + eexists. split_and!; try done.
    + eexists. split_and!; try done.
      * intros k Hk. simpl. by rewrite lookup_delete_ne.
      * intros _. apply load_latest_absent. left. simpl.
        change (latest_key (set_files w (delete (latest_key w) (files w))))
          with (latest_key w).
        by rewrite lookup_delete_eq.
  - rewrite bool_decide_false by (by intros [? ?]).
    eexists. split_and!; try done.
    intros _. apply load_latest_absent. by left.
Qed.

(** ** Strings *)

Lemma app_cons (a : ascii) (s t : string) :
  String a s +:+ t = String a (s +:+ t).
Proof. done. Qed.

Lemma app_empty_r (s : string) : s +:+ "" = s.
Proof. induction s as [|a s IH]; [done|]. by rewrite app_cons, IH. Qed.

Lemma rev_app_rev_app (s t u : string) :
  String.rev_app (String.rev_app s t) u = String.rev_app t (s +:+ u).
Proof.
  revert t u. induction s as [|a s IH]; intros t u; [done|].
  cbn [String.rev_app]. by rewrite IH.
Qed.

Lemma rev_rev (s : string) : String.rev (String.rev s) = s.
Proof.
  unfold String.rev. rewrite rev_app_rev_app. cbn [String.rev_app].
  apply app_empty_r.
Qed.

Lemma str_all_rev_app (f : ascii → bool) (s t : string) :
  str_all f (String.rev_app s t) = str_all f s && str_all f t.
Proof.
  revert t. induction s as [|a s IH]; intros t; [done|].
  simpl. rewrite IH. simpl. by destruct (f a), (str_all f s).
Qed.

Lemma str_all_rev (f : ascii → bool) (s : string) :
  str_all f (String.rev s) = str_all f s.
Proof. unfold String.rev. rewrite str_all_rev_app. simpl. by rewrite andb_true_r. Qed.

Lemma str_all_app (f : ascii → bool) (s t : string) :
  str_all f (s +:+ t) = str_all f s && str_all f t.
Proof.
  induction s as [|a s IH]; [done|].
  rewrite app_cons. cbn [str_all]. by rewrite IH, andb_assoc.
Qed.

Lemma str_mem_app (c : ascii) (s t : string) :
  str_mem c (s +:+ t) = str_mem c s || str_mem c t.
Proof.
  induction s as [|a s IH]; [done|].
  rewrite app_cons. cbn [str_mem]. by rewrite IH, orb_assoc.
Qed.

Lemma str_all_not_mem (f : ascii → bool) (c : ascii) (s : string) :
  f c = false → str_all f s = true → str_mem c s = false.
Proof.
  intros Hc. induction s as [|a s IH]; [done|]. simpl.
  intros [Ha Hs]%andb_true_iff. rewrite (IH Hs), orb_false_r.
  apply Ascii.eqb_neq. intros ->. congruence.
Qed.

Lemma lstrip_all (f : ascii → bool) (s : string) :
  (∀ a, f a = true → is_space a = false) →
  str_all f s = true → lstrip s = s.
Proof.
  intros Hf. destruct s as [|a s]; [done|]. simpl.
  intros [Ha _]%andb_true_iff. by rewrite (Hf a Ha).
Qed.

Lemma strip_all (f : ascii → bool) (s : string) :
  (∀ a, f a = true → is_space a = false) →
  str_all f s = true → strip s = s.
Proof.
  intros Hf Hs. unfold strip, rstrip. rewrite (lstrip_all f s Hf Hs).
  rewrite (lstrip_all f (String.rev s) Hf) by (by rewrite str_all_rev).
  apply rev_rev.
Qed.

Lemma name_char_not_space (a : ascii) : name_char a = true → is_space a = false.
Proof. destruct a as [[] [] [] [] [] [] [] []]; by vm_compute. Qed.

Lemma str_filter_all (f : ascii → bool) (s : string) :
  str_all f (str_filter f s) = true.
Proof.
  induction s as [|a s IH]; [done|]. simpl.
  destruct (f a) eqn:E; [|done]. simpl. by rewrite E.
Qed.

Lemma str_filter_id (f : ascii → bool) (s : string) :
  str_all f s = true → str_filter f s = s.
Proof.
  induction s as [|a s IH]; [done|]. simpl.
  intros [Ha Hs]%andb_true_iff. by rewrite Ha, IH.
Qed.

(** ** File names of events *)

Lemma safe_name_unfold (s : string) :
  safe_name s = str_or (str_filter name_char s) "event".
Proof.
  unfold safe_name. fold name_char.
  by rewrite (strip_all name_char _ name_char_not_space (str_filter_all _ _)).
Qed.

Lemma safe_name_all (s : string) : str_all name_char (safe_name s) = true.
Proof.
  rewrite safe_name_unfold. unfold str_or.
  destruct (str_nonempty _); [apply str_filter_all|done].
Qed.

Lemma safe_name_is_safe_slash (s : string) : str_mem "/" (safe_name s) = false.
Proof. by apply (str_all_not_mem name_char), safe_name_all. Qed.

(** [safe_name] never gives the empty string; what it gives is made of
    ASCII letters, digits, [-] and [_] only, so it has no slash and no dot
    and can be part of a file name without leaving the directory; applying
    it twice changes nothing more. *)
Theorem safe_name_is_safe (s : string) :
  safe_name s ≠ ""
  ∧ str_all name_char (safe_name s) = true
  ∧ str_mem "/" (safe_name s) = false
  ∧ str_mem "." (safe_name s) = false
  ∧ safe_name (safe_name s) = safe_name s.
Proof.
  pose proof (safe_name_all s) as Hall.
  assert (safe_name s ≠ "") as Hne
    by (rewrite safe_name_unfold; by apply str_or_nonempty).
  split_and!; try done.
  - by apply (str_all_not_mem name_char).
  - by apply (str_all_not_mem name_char).
  - rewrite (safe_name_unfold (safe_name s)), (str_filter_id _ _ Hall).
    unfold str_or. by destruct (safe_name s).
Qed.

(** ** Paths *)

Lemma split_slash_plain (c cur s : string) :
  str_mem "/" c = false →
  split_slash cur (c +:+ s) = split_slash (String.rev_app c cur) s.
Proof.
  revert cur. induction c as [|a c IH]; intros cur; [done|].
  cbn [str_mem]. intros [Ha Hc]%orb_false_iff.
  rewrite app_cons. cbn [split_slash String.rev_app]. rewrite Ha. by apply IH.
Qed.

Lemma split_slash_one (c : string) :
  str_mem "/" c = false → split_slash "" c = [c].
Proof.
  intros Hc. rewrite <-(app_empty_r c) at 1.
  rewrite (split_slash_plain c "" "" Hc). cbn [split_slash].
  by rewrite <-(rev_rev c) at 2.
Qed.

Lemma split_slash_concat (c : string) (cs : list string) :
  Forall (λ x, str_mem "/" x = false) (c :: cs) →
  split_slash "" (String.concat "/" (c :: cs)) = c :: cs.
Proof.
  revert c. induction cs as [|c2 cs IH]; intros c Hall.
  - apply split_slash_one. by apply Forall_inv in Hall.
  - change (String.concat "/" (c :: c2 :: cs))
      with (c +:+ String "/" (String.concat "/" (c2 :: cs))).
    rewrite (split_slash_plain c) by (by apply Forall_inv in Hall).
    cbn [split_slash]. change (Ascii.eqb "/" "/") with true. cbv iota.
    rewrite (IH c2) by (by apply Forall_inv_tail in Hall).
    f_equal. apply rev_rev.
Qed.

Lemma filter_all {A : Type} (P : A → Prop) `{∀ x, Decision (P x)} (l : list A) :
  Forall P l → filter P l = l.
Proof.
  induction 1 as [|x l Hx _ IH]; [done|].
  by rewrite filter_cons_True, IH.
Qed.

Lemma first_not_slash (c : string) :
  c ≠ "" → str_mem "/" c = false → ∃ a s, c = String a s ∧ a ≠ "/"%char.
Proof.
  destruct c as [|a s]; [done|]. intros _. cbn [str_mem].
  intros [Ha _]%orb_false_iff. exists a, s. split; [done|].
  by apply Ascii.eqb_neq.
Qed.

Lemma Path_anchor_relative (a : ascii) (s : string) :
  a ≠ "/"%char → anchor_of (Path (String a s)) = Relative.
Proof.
  intros Ha. destruct a as [[] [] [] [] [] [] [] []]; try done.
Qed.

Lemma Path_anchor_root (a : ascii) (s : string) :
  a ≠ "/"%char → anchor_of (Path (String "/" (String a s))) = Root.
Proof.
  intros Ha. destruct a as [[] [] [] [] [] [] [] []]; try done.
Qed.

Lemma Path_unfold (s : string) :
  Path s = MkPath (anchor_of (Path s))
             (filter (λ c, c ≠ "" ∧ c ≠ ".") (split_slash "" s)).
Proof. done. Qed.

Lemma plain_parts_split (cs : list string) :
  Forall plain_part cs →
  Forall (λ x, str_mem "/" x = false) cs ∧ Forall (λ c, c ≠ "" ∧ c ≠ ".") cs
  ∧ Forall (λ c, c ≠ "..") cs.
Proof.
  intros H. split_and!; eapply Forall_impl; try exact H;
    by intros c (? & ? & ? & ?).
Qed.

(** [Path(str(p)) == p] for an absolute path of plain pieces. *)
Lemma Path_path_str (cs : list string) :
  Forall plain_part cs → Path (path_str (MkPath Root cs)) = MkPath Root cs.
Proof.
  intros Hcs. destruct (plain_parts_split cs Hcs) as (Hslash & Hkeep & _).
  destruct cs as [|c cs]; [done|].
  unfold path_str. cbn [anchor_of parts].
  change ("/" +:+ String.concat "/" (c :: cs))
    with (String "/" (String.concat "/" (c :: cs))).
  rewrite Path_unfold. f_equal.
  - apply Forall_inv in Hcs as (Hne & _ & _ & Hs).
    destruct (first_not_slash c Hne Hs) as (a & s & -> & Ha).
    destruct cs as [|c2 cs]; [by apply Path_anchor_root|].
    change (String.concat "/" (String a s :: c2 :: cs))
      with (String a (s +:+ String "/" (String.concat "/" (c2 :: cs)))).
    by apply Path_anchor_root.
  - cbn [split_slash]. change (Ascii.eqb "/" "/") with true. cbv iota.
    rewrite split_slash_concat by done.
    rewrite filter_cons_False by (intros [? _]; done).
    by apply filter_all.
Qed.

Lemma Path_plain (c : string) :
  plain_part c → Path c = MkPath Relative [c].
Proof.
  intros (Hne & Hdot & _ & Hs). rewrite Path_unfold. f_equal.
  - destruct (first_not_slash c Hne Hs) as (a & s & -> & Ha).
    by apply Path_anchor_relative.
  - rewrite (split_slash_one c Hs). by rewrite filter_cons_True, filter_nil.
Qed.

Lemma collapse_plain (seen cs : list string) :
  Forall (λ c, c ≠ "..") cs → collapse seen cs = rev seen ++ cs.
Proof.
  revert seen. induction cs as [|c cs IH]; intros seen Hcs.
  - simpl. by rewrite app_nil_r.
  - cbn [collapse]. rewrite decide_False by (by apply Forall_inv in Hcs).
    rewrite IH by (by apply Forall_inv_tail in Hcs).
    simpl. by rewrite <-app_assoc.
Qed.

Lemma resolve_plain (cwd : path) (cs : list string) :
  Forall plain_part cs → resolve cwd (MkPath Root cs) = MkPath Root cs.
Proof.
  intros Hcs. destruct (plain_parts_split cs Hcs) as (_ & _ & Hup).
  unfold resolve, path_div. cbn [anchor_of parts].
  by rewrite (collapse_plain [] cs Hup).
Qed.

Lemma fs_key_plain (w : world) (cs : list string) :
  Forall plain_part cs →
  fs_key w (MkPath Root cs) = path_str (MkPath Root cs)
  ∧ fs_key w (Path (path_str (MkPath Root cs))) = path_str (MkPath Root cs).
Proof.
  intros Hcs. unfold fs_key. by rewrite (Path_path_str cs Hcs), resolve_plain.
Qed.

Lemma path_str_inj (cs cs' : list string) :
  Forall plain_part cs → Forall plain_part cs' →
  path_str (MkPath Root cs) = path_str (MkPath Root cs') → cs = cs'.
Proof.
  intros H1 H2 E. apply (f_equal Path) in E.
  rewrite !Path_path_str in E by done. by injection E.
Qed.

(** ** Where an event is archived *)

Lemma DATA_DIR_parts (w : world) :
  DATA_DIR w = MkPath Root (app_root w ++ ["data"]).
Proof. done. Qed.

Lemma LATEST_FILE_parts (w : world) :
  LATEST_FILE w = MkPath Root (app_root w ++ ["data"; "latest.json"]).
Proof.
  unfold LATEST_FILE. rewrite DATA_DIR_parts. unfold path_div.
  cbn [anchor_of parts Path]. by rewrite <-app_assoc.
Qed.

Lemma plain_data : plain_part "data".
Proof. by repeat split. Qed.

Lemma plain_latest : plain_part "latest.json".
Proof. by repeat split. Qed.

Lemma underscore_plain (c : string) :
  str_mem "_" c = true → str_mem "/" c = false →
  plain_part c ∧ c ≠ "latest.json".
Proof.
  intros Hu Hs. repeat split; try done; intros ->; discriminate.
Qed.

Lemma archive_name_plain (event_id event_name : string) :
  str_mem "/" event_id = false →
  plain_part (archive_name event_id event_name)
  ∧ archive_name event_id event_name ≠ "latest.json".
Proof.
  intros Hid. pose proof (safe_name_is_safe_slash event_name) as Hsafe.
  apply underscore_plain; unfold archive_name; rewrite !str_mem_app.
  - cbn. by rewrite orb_true_r.
  - by rewrite Hid, Hsafe.
Qed.

Lemma plain_in_data (root : list string) (c : string) :
  Forall plain_part root → plain_part c →
  Forall plain_part (root ++ ["data"; c]) ∧ Forall plain_part (root ++ ["data"]).
Proof.
  intros Hroot Hc. split; apply Forall_app; (split; [done|]).
  - constructor; [exact plain_data|]. constructor; [exact Hc|]. constructor.
  - constructor; [exact plain_data|]. constructor.
Qed.

Lemma archive_path (w : world) (event_id event_name : string) :
  Forall plain_part (app_root w) →
  str_mem "/" event_id = false →
  let cs := app_root w ++ ["data"; archive_name event_id event_name] in
  path_div (DATA_DIR w) (Path (archive_name event_id event_name)) = MkPath Root cs
  ∧ Forall plain_part cs
  ∧ Forall plain_part (app_root w ++ ["data"; "latest.json"])
  ∧ path_str (MkPath Root cs) ≠ latest_key w.
Proof.
  intros Hroot Hid cs.
  destruct (archive_name_plain event_id event_name Hid) as [Hp Hl].
  assert (Forall plain_part cs) as Hcs by (by apply plain_in_data).
  assert (Forall plain_part (app_root w ++ ["data"; "latest.json"])) as Hls
    by (apply plain_in_data; [done|exact plain_latest]).
  split_and!; try done.
  - rewrite (Path_plain _ Hp), DATA_DIR_parts. unfold path_div.
    cbn [anchor_of parts]. unfold cs. by rewrite <-app_assoc.
  - unfold latest_key. rewrite LATEST_FILE_parts.
    rewrite (proj1 (fs_key_plain w _ Hls)).
    intros E. apply path_str_inj in E; [|done..].
    apply app_inv_head in E. by injection E.
Qed.

Lemma latest_key_plain (w : world) :
  Forall plain_part (app_root w) →
  latest_key w = path_str (MkPath Root (app_root w ++ ["data"; "latest.json"])).
Proof.
  intros Hroot. unfold latest_key. rewrite LATEST_FILE_parts.
  apply fs_key_plain. apply plain_in_data; [done|exact plain_latest].
Qed.

Lemma new_event_files (name : string) (target : Z) (event_id created_at : string)
    (w w1 : world) (state : json) :
  new_event name target event_id created_at w = (Ok state, w1) →
  let event_file := path_div (DATA_DIR w) (Path (archive_name event_id name)) in
  py_get state "eventFile" JNull = Ok (JStr (path_str event_file))
  ∧ py_truthy state = true
  ∧ files w1 = <[latest_key w := Document state]>
                 (<[fs_key w event_file := Document state]> (files w))
  ∧ same_env w w1.
Proof.
  unfold new_event. intros H.
  apply bind_inv in H as (u1 & wa & Hw1 & H).
  apply bind_inv in H as (u2 & wb & Hw2 & H).
  unfold mret, M_ret in H. injection H as <- <-.
  rewrite save_latest_unfold in Hw2.
  destruct (decide (latest_key wa ∈ unwritable wa)) as [|Hwa]; [done|].
  injection Hw2 as _ <-.
  unfold write_json in Hw1. destruct (decide (_ ∈ _)); [done|].
  injection Hw1 as _ <-.
  by split_and!.
Qed.

Lemma is_proper_prefix_app (xs : list string) (y : string) (ys : list string) :
  is_proper_prefix xs (xs ++ y :: ys) = true.
Proof.
  induction xs as [|x xs IH]; [done|]. simpl. by rewrite bool_decide_true.
Qed.

Lemma is_proper_prefix_irrefl (xs : list string) : is_proper_prefix xs xs = false.
Proof.
  induction xs as [|x xs IH]; [done|]. simpl. by rewrite IH, andb_false_r.
Qed.

Lemma path_inside_data_archive (w : world) (c : string) :
  Forall plain_part (app_root w) → plain_part c →
  let cs := app_root w ++ ["data"; c] in
  path_inside_data (Path (path_str (MkPath Root cs))) w = (Ok true, w)
  ∧ path_name (Path (path_str (MkPath Root cs))) = c
  ∧ Forall plain_part cs.
Proof.
  intros Hroot Hc cs.
  destruct (plain_in_data (app_root w) c Hroot Hc) as [Hcs Hd].
  split_and!; [| |done].
  - unfold path_inside_data. rewrite (Path_path_str cs Hcs), DATA_DIR_parts.
    rewrite !resolve_plain by done. unfold in_parents. cbn [anchor_of parts].
    rewrite bool_decide_true by done. unfold cs.
    change (app_root w ++ ["data"; c]) with (app_root w ++ [ "data" ] ++ [c]).
    by rewrite app_assoc, is_proper_prefix_app.
  - rewrite (Path_path_str cs Hcs). unfold path_name, cs. cbn [parts].
    change (app_root w ++ ["data"; c]) with (app_root w ++ [ "data" ] ++ [c]).
    by rewrite app_assoc, last_last.
Qed.

(** What [new_event] stores and where, for a resolved installation
    directory and an event id without a slash. *)
Lemma new_event_archive (name : string) (target : Z)
    (event_id created_at : string) (w w1 : world) (state : json) :
  Forall plain_part (app_root w) →
  str_mem "/" event_id = false →
  new_event name target event_id created_at w = (Ok state, w1) →
  let f := path_str (MkPath Root (app_root w ++ ["data"; archive_name event_id name])) in
  py_get state "eventFile" JNull = Ok (JStr f)
  ∧ load_latest w1 = (Ok state, w1)
  ∧ read_json (λ _, Path f) w1 = (Ok state, w1)
  ∧ path_inside_data (Path f) w1 = (Ok true, w1)
  ∧ path_name (Path f) = archive_name event_id name
  ∧ path_name (Path f) ≠ "latest.json"
  ∧ fs_key w1 (Path f) ≠ latest_key w1
  ∧ ∀ k, k ≠ latest_key w → k ≠ fs_key w (Path f) →
         files w1 !! k = files w !! k.
Proof.
  intros Hroot Hid Hnew f.
  destruct (archive_path w event_id name Hroot Hid) as (Hpath & Hcs & _ & Hne).
  destruct (archive_name_plain event_id name Hid) as [Hp Hl].
  destruct (new_event_files _ _ _ _ _ _ _ Hnew) as (Hf & _ & Hfiles & Hr & Hun & Hde).
  rewrite Hpath in Hf, Hfiles.
  destruct (fs_key_plain w _ Hcs) as [Hk1 Hk2]. rewrite Hk1 in Hfiles.
  assert (Forall plain_part (app_root w1)) as Hroot1 by (by rewrite Hr).
  destruct (path_inside_data_archive w1 _ Hroot1 Hp) as (Hin & Hname & _).
  rewrite Hr in Hin, Hname.
  assert (fs_key w1 (Path f) = f) as Hkf
    by (rewrite (fs_key_env _ _ _ Hr); exact Hk2).
  split_and!; try done.
  - apply load_latest_document.
    by rewrite Hfiles, (latest_key_env _ _ Hr), lookup_insert_eq.
  - unfold read_json. rewrite Hkf, Hfiles, lookup_insert_ne by done.
    by rewrite lookup_insert_eq.
  - unfold f. by rewrite Hname.
  - by rewrite Hkf, (latest_key_env _ _ Hr).
  - intros k H1 H2. unfold f in H2. rewrite Hk2 in H2. rewrite Hfiles.
    by rewrite !lookup_insert_ne.
Qed.

(** ** Deleting an archived event *)

Lemma path_exists_some (p : world → path) (w : world) (x : file) :
  files w !! fs_key w (p w) = Some x → path_exists p w = (Ok true, w).
Proof. intros H. unfold path_exists. by rewrite H, bool_decide_true by eauto. Qed.

Lemma path_exists_none (p : world → path) (w : world) :
  files w !! fs_key w (p w) = None → path_exists p w = (Ok false, w).
Proof.
  intros H. unfold path_exists. rewrite H, bool_decide_false; [done|].
  by intros [? ?].
Qed.

Lemma unlink_ok (p : world → path) (w : world) (x : file) :
  files w !! fs_key w (p w) = Some x →
  fs_key w (p w) ∉ undeletable w →
  unlink p w = (Ok (), set_files w (delete (fs_key w (p w)) (files w))).
Proof. intros H Hd. unfold unlink. by rewrite H, decide_False. Qed.

Lemma load_latest_truthy (w : world) (state : json) :
  load_latest w = (Ok state, w) → py_truthy state = true →
  files w !! latest_key w = Some (Document state).
Proof.
  rewrite load_latest_unfold.
  destruct (files w !! latest_key w) as [[j|]|]; intros [= <-]; done.
Qed.

Lemma delete_named_record (body state : json) (f : string) (w : world) :
  py_get body "eventFile" JNull = Ok (JStr f) →
  f ≠ "" →
  path_inside_data (Path f) w = (Ok true, w) →
  path_name (Path f) ≠ "latest.json" →
  is_Some (files w !! fs_key w (Path f)) →
  load_latest w = (Ok state, w) →
  py_truthy state = true →
  py_get state "eventFile" JNull = Ok (JStr (path_str (Path f))) →
  fs_key w (Path f) ≠ latest_key w →
  latest_key w ∉ undeletable w →
  fs_key w (Path f) ∉ undeletable w →
  handle_api_delete body w
  = (Ok (Response 200 (JDict [("ok", JBool true)])),
     set_files w (delete (fs_key w (Path f)) (delete (latest_key w) (files w)))).
Proof.
  intros Hbody Hne Hin Hname [x Hx] Hload Htruthy Hef Hkeys Hdl Hdf.
  pose proof (load_latest_truthy w state Hload Htruthy) as Hslot.
  set (w2 := set_files w (delete (latest_key w) (files w))).
  assert (files w2 !! fs_key w2 (Path f) = Some x) as Hx2.
  { change (delete (latest_key w) (files w) !! fs_key w (Path f) = Some x).
    by rewrite lookup_delete_ne. }
  unfold handle_api_delete. rewrite bind_lift, Hbody.
  cbv iota beta. rewrite (str_nonempty_true f Hne). cbn [negb].
  rewrite (bind_ok _ _ _ _ _ Hin). cbn [negb].
  rewrite bool_decide_false by done.
  rewrite (bind_ok _ _ _ _ _ (path_exists_some (λ _, Path f) w x Hx)).
  cbn [negb]. rewrite (bind_ok _ _ _ _ _ Hload), Htruthy.
  rewrite (bind_ok _ _ w w true).
  2:{ rewrite bind_lift, Hef. unfold mret, M_ret, eq_str.
      by rewrite bool_decide_true. }
  rewrite (bind_ok _ _ w w2 ()).
  2:{ unfold try_except.
      rewrite (bind_ok _ _ _ _ _ (path_exists_some LATEST_FILE w _ Hslot)).
      by rewrite (unlink_ok LATEST_FILE w _ Hslot Hdl). }
  rewrite (bind_ok _ _ w2 (set_files w2 (delete (fs_key w (Path f)) (files w2))) true);
    [done|].
  unfold try_except.
  by rewrite (bind_ok _ _ _ _ _ (unlink_ok (λ _, Path f) w2 x Hx2 Hdf)).
Qed.

Lemma after_delete (w : world) (k : string) :
  k ≠ latest_key w →
  let w' := set_files w (delete k (delete (latest_key w) (files w))) in
  load_latest w' = (Ok JNull, w')
  ∧ files w' !! k = None
  ∧ ∀ k', k' ≠ latest_key w → k' ≠ k → files w' !! k' = files w !! k'.
Proof.
  intros Hk w'. split_and!.
  - apply load_latest_absent. left.
    change (delete k (delete (latest_key w) (files w)) !! latest_key w = None).
    by rewrite lookup_delete_ne, lookup_delete_eq.
  - apply lookup_delete_eq.
  - intros k' H1 H2.
    change (delete k (delete (latest_key w) (files w)) !! k' = files w !! k').
    by rewrite !lookup_delete_ne.
Qed.



(** ** Creating, deleting, continuing *)

(** When the installation directory is a resolved path and the event id has
    no slash (as every [now_id()] has none), a successful [POST /api/new]
    stores the new state twice: in the current slot and in a file directly
    inside [data/], whose name is the id, an underscore, the safe name and
    [.json]. The state's [eventFile] is the name of that file, which is
    never [latest.json]; no other file is touched. *)
Theorem create_archives_event (body : json) (event_id created_at : string)
    (w w1 : world) (rep : response) :
  Forall plain_part (app_root w) →
  str_mem "/" event_id = false →
  handle_api_new body event_id created_at w = (Ok rep, w1) →
  ∃ state name f,
    rep = Response 200 (ok_reply state)
    ∧ py_get state "eventName" JNull = Ok (JStr name)
    ∧ f = path_str (MkPath Root (app_root w ++ ["data"; archive_name event_id name]))
    ∧ py_get state "eventFile" JNull = Ok (JStr f)
    ∧ load_latest w1 = (Ok state, w1)
    ∧ read_json (λ _, Path f) w1 = (Ok state, w1)
    ∧ path_inside_data (Path f) w1 = (Ok true, w1)
    ∧ path_name (Path f) ≠ "latest.json"
    ∧ ∀ k, k ≠ latest_key w → k ≠ fs_key w (Path f) →
           files w1 !! k = files w !! k.
Proof.
  intros Hroot Hid H.
  apply handle_api_new_inv in H as (n & t & _ & _ & state & Hnew & ->).
  destruct (new_event_archive _ _ _ _ _ _ _ Hroot Hid Hnew)
    as (Hf & Hload & Hread & Hin & _ & Hname & _ & Hrest).
  apply new_event_inv in Hnew as (d & -> & _ & _ & _ & Hn & _).
  eexists (JDict d), _, _. split_and!; try done.
  by rewrite py_get_dict, Hn.
Qed.

(** Create and then delete by the [eventFile] of the answer: with a
    resolved installation directory, an event id without a slash and no file
    protected from removal, the delete request is accepted, and afterwards
    there is no current event, the archive is gone and every other file is
    as it was before the event was created. *)
Theorem create_then_delete (body : json) (event_id created_at : string)
    (w w1 : world) (rep : response) :
  Forall plain_part (app_root w) →
  str_mem "/" event_id = false →
  undeletable w = ∅ →
  handle_api_new body event_id created_at w = (Ok rep, w1) →
  ∃ state f w2,
    rep = Response 200 (ok_reply state)
    ∧ py_get state "eventFile" JNull = Ok (JStr f)
    ∧ handle_api_delete (JDict [("eventFile", JStr f)]) w1
      = (Ok (Response 200 (JDict [("ok", JBool true)])), w2)
    ∧ load_latest w2 = (Ok JNull, w2)
    ∧ path_exists (λ _, Path f) w2 = (Ok false, w2)
    ∧ ∀ k, k ≠ latest_key w → k ≠ fs_key w (Path f) →
           files w2 !! k = files w !! k.
Proof.
  intros Hroot Hid Hdel H.
  apply handle_api_new_inv in H as (n & t & _ & _ & state & Hnew & ->).
  destruct (new_event_archive _ _ _ _ _ _ _ Hroot Hid Hnew)
    as (Hf & Hload & Hread & Hin & _ & Hname & Hkeys & Hrest).
  destruct (new_event_files _ _ _ _ _ _ _ Hnew) as (_ & Htruthy & _ & Hr & _ & Hde).
  set (f := path_str (MkPath Root (app_root w ++ ["data"; archive_name event_id
                 (str_or (strip (py_str n)) "BingoEvent")]))) in *.
  destruct (archive_path w event_id (str_or (strip (py_str n)) "BingoEvent")
              Hroot Hid) as (_ & Hcs & _ & _).
  assert (path_str (Path f) = f) as Hstr by (unfold f; by rewrite Path_path_str).
  assert (is_Some (files w1 !! fs_key w1 (Path f))) as Hx.
  { unfold read_json in Hread.
    destruct (files w1 !! fs_key w1 (Path f)) as [x|]; [eauto|done]. }
  assert (f ≠ "") as Hne by (unfold f; done).
  destruct (after_delete w1 (fs_key w1 (Path f)) Hkeys) as (Hnone & Hgone & Hafter).
  exists state, f, (set_files w1 (delete (fs_key w1 (Path f))
                                     (delete (latest_key w1) (files w1)))).
  split_and!; try done.
  - apply (delete_named_record _ state); try done.
    + by rewrite Hstr.
    + rewrite Hde, Hdel. apply not_elem_of_empty.
    + rewrite Hde, Hdel. apply not_elem_of_empty.
  - by apply path_exists_none.
  - intros k H1 H2. rewrite <-(latest_key_env _ _ Hr) in H1.
    rewrite <-(fs_key_env _ _ _ Hr) in H2.
    rewrite (Hafter k H1 H2). apply Hrest.
    + by rewrite <-(latest_key_env _ _ Hr).
    + by rewrite <-(fs_key_env _ _ _ Hr).
Qed.

(** ** Continuing an archived event *)

Lemma in_parents_ne (d p : path) : in_parents d p = true → p ≠ d.
Proof.
  intros H ->. unfold in_parents in H.
  by rewrite is_proper_prefix_irrefl, andb_false_r in H.
Qed.

Lemma inside_is_not_data (p : path) (w : world) :
  path_inside_data p w = (Ok true, w) → path_is_data p w = (Ok false, w).
Proof.
  unfold path_inside_data, path_is_data. intros H.
  assert (in_parents (resolve (WEB_DIR w) (DATA_DIR w)) (resolve (WEB_DIR w) p)
          = true) as Hin by congruence.
  rewrite bool_decide_false; [done|]. by apply in_parents_ne.
Qed.


Lemma handle_api_use_ok (body : json) (f : string) (j : json) (w : world) :
  py_get body "eventFile" JNull = Ok (JStr f) →
  f ≠ "" →
  path_inside_data (Path f) w = (Ok true, w) →
  files w !! fs_key w (Path f) = Some (Document j) →
  latest_key w ∉ unwritable w →
  handle_api_use body w
  = (Ok (Response 200 (ok_reply j)),
     set_files w (<[latest_key w := Document j]> (files w))).
Proof.
  intros Hbody Hne Hin Hx Hw.
  unfold handle_api_use. rewrite bind_lift, Hbody.
  cbv iota beta. rewrite (str_nonempty_true f Hne). cbn [negb].
  rewrite (bind_ok _ _ _ _ _ Hin).
  rewrite (bind_ok _ _ _ _ _ (inside_is_not_data _ _ Hin)).
  cbn [negb andb].
  rewrite (bind_ok _ _ _ _ _ (path_exists_some (λ _, Path f) w _ Hx)).
  cbn [negb].
  rewrite (bind_ok _ _ w w (Some j)).
  2:{ unfold try_except, mbind, M_bind, read_json. by rewrite Hx. }
  rewrite (bind_ok _ _ w (set_files w (<[latest_key w := Document j]> (files w))) ());
    [done|].
  by rewrite save_latest_unfold, decide_False.
Qed.



Lemma handle_api_reset_deletable (w : world) (x : file) :
  files w !! latest_key w = Some x →
  latest_key w ∉ undeletable w →
  handle_api_reset w
  = (Ok (Response 200 (JDict [("ok", JBool true)])),
     set_files w (delete (latest_key w) (files w))).
Proof.
  intros Hx Hd. unfold handle_api_reset.
  rewrite (bind_ok _ _ w (set_files w (delete (latest_key w) (files w))) ());
    [done|].
  unfold try_except.
  rewrite (bind_ok _ _ _ _ _ (path_exists_some LATEST_FILE w x Hx)).
  by rewrite (unlink_ok LATEST_FILE w x Hx Hd).
Qed.

(** An event that [POST /api/reset] has taken out of the current slot can be
    continued from its archive: after create and reset there is no current
    event, and [POST /api/use] with the [eventFile] of the created event
    makes that very state the current event again. *)
Theorem reset_then_use_restores (body : json) (event_id created_at : string)
    (w w1 : world) (rep : response) :
  Forall plain_part (app_root w) →
  str_mem "/" event_id = false →
  latest_key w ∉ undeletable w →
  handle_api_new body event_id created_at w = (Ok rep, w1) →
  ∃ state f w2 w3,
    rep = Response 200 (ok_reply state)
    ∧ py_get state "eventFile" JNull = Ok (JStr f)
    ∧ handle_api_reset w1 = (Ok (Response 200 (JDict [("ok", JBool true)])), w2)
    ∧ load_latest w2 = (Ok JNull, w2)
    ∧ handle_api_use (JDict [("eventFile", JStr f)]) w2
      = (Ok (Response 200 (ok_reply state)), w3)
    ∧ load_latest w3 = (Ok state, w3).
Proof.
  intros Hroot Hid Hdel H.
  apply handle_api_new_inv in H as (n & t & _ & _ & state & Hnew & ->).
  destruct (new_event_archive _ _ _ _ _ _ _ Hroot Hid Hnew)
    as (Hf & Hload & Hread & Hin & _ & Hname & Hkeys & Hrest).
  destruct (new_event_files _ _ _ _ _ _ _ Hnew) as (_ & Htruthy & _ & Hr & Hun & Hde).
  apply new_event_inv in Hnew as (_ & _ & _ & Hw1 & _).
  set (f := path_str (MkPath Root (app_root w ++ ["data"; archive_name event_id
                 (str_or (strip (py_str n)) "BingoEvent")]))) in *.
  pose proof (load_latest_truthy w1 state Hload Htruthy) as Hslot.
  assert (files w1 !! fs_key w1 (Path f) = Some (Document state)) as Hx.
  { unfold read_json in Hread.
    destruct (files w1 !! fs_key w1 (Path f)) as [[j|]|]; try done.
    by injection Hread as ->. }
  set (w2 := set_files w1 (delete (latest_key w1) (files w1))).
  exists state, f, w2, (set_files w2 (<[latest_key w2 := Document state]> (files w2))).
  split_and!; try done.
  - apply (handle_api_reset_deletable w1 (Document state) Hslot).
    by rewrite (latest_key_env _ _ Hr), Hde.
  - apply load_latest_absent. left. apply lookup_delete_eq.
  - apply (handle_api_use_ok _ f state w2).
    + done.
    + unfold f. done.
    + revert Hin. unfold path_inside_data. intros Hin.
      change (WEB_DIR w2) with (WEB_DIR w1).
      change (DATA_DIR w2) with (DATA_DIR w1). congruence.
    + change (delete (latest_key w1) (files w1) !! fs_key w1 (Path f)
              = Some (Document state)).
      by rewrite lookup_delete_ne.
    + exact Hw1.
  - apply load_latest_document. apply lookup_insert_eq.
Qed.

(** ** Labels *)

Lemma pretty_N_char_digit (x : N) : is_digit (pretty_N_char x) = true.
Proof. unfold pretty_N_char. by repeat case_match. Qed.

Lemma pretty_N_go_first (c : ascii) (x : N) (s : string) :
  is_digit c = false →
  (∀ t, s ≠ String c t) → ∀ t, pretty_N_go x s ≠ String c t.
Proof.
  intros Hc. revert s. induction (N.lt_wf_0 x) as [x _ IH]; intros s Hs t.
  assert (x = 0 ∨ 0 < x)%N as [->|?] by lia.
  - rewrite pretty_N_go_0. apply Hs.
  - rewrite pretty_N_go_step by done. apply IH.
    { by apply N.div_lt. }
    intros t' [= E _]. pose proof (pretty_N_char_digit (x `mod` 10)) as Hd.
    rewrite E in Hd. congruence.
Qed.

Lemma pretty_Z_first (c : ascii) (z : Z) (t : string) :
  is_digit c = false → c ≠ "-"%char → pretty z ≠ String c t.
Proof.
  intros Hc Hdash.
  assert (∀ p : positive, pretty p ≠ String c t) as Hpos.
  { intros p. unfold pretty, pretty_positive, pretty, pretty_N.
    rewrite decide_False by done. by apply pretty_N_go_first. }
  destruct z as [|p|p]; unfold pretty, pretty_Z.
  - intros [= E _]. rewrite <-E in Hc. discriminate.
  - apply Hpos.
  - rewrite app_cons. intros [= E _]. by rewrite E in Hdash.
Qed.

(** Different numbers have different labels, whichever integers they are:
    the label tells the number. *)
Theorem bingo_label_inj (n m : Z) : bingo_label n = bingo_label m → n = m.
Proof.
  unfold bingo_label.
  repeat case_match; rewrite ?app_cons; intros Hlab;
    first
      [ by apply (inj pretty)
      | by (injection Hlab as Hlab; apply (inj pretty))
      | discriminate Hlab
      | by apply pretty_Z_first in Hlab
      | by (symmetry in Hlab; apply pretty_Z_first in Hlab) ].
Qed.

(** ** The pool *)










(** ** Stored states that the handlers cannot read *)

(** When the current slot holds JSON that is not an object and not [null],
    start, draw, undo and end raise [AttributeError] and change nothing;
    [GET /api/state] sends the value back. *)
Theorem non_object_slot_raises (w : world) (state : json) (now : string)
    (r : nat) :
  load_latest w = (Ok state, w) →
  is_none state = false →
  is_dict state = false →
  handle_api_state w = (Ok (Response 200 (ok_reply state)), w)
  ∧ handle_api_start now w = (Raise AttributeError, w)
  ∧ handle_api_draw r w = (Raise AttributeError, w)
  ∧ handle_api_undo w = (Raise AttributeError, w)
  ∧ handle_api_end now w = (Raise AttributeError, w).
Proof.
  intros Hload Hn Hd.
  unfold handle_api_state, handle_api_start, handle_api_draw, handle_api_undo,
    handle_api_end.
  rewrite !(bind_ok _ _ _ _ _ Hload), Hn.
  by destruct state.
Qed.

(** A running event whose [drawnOrder] is present but is [null], a boolean
    or a number cannot be drawn from or undone: both handlers raise
    [TypeError] and change nothing. *)
Theorem unreadable_history_raises (w : world) (d : list (string * json))
    (x : json) (r : nat) :
  load_latest w = (Ok (JDict d), w) →
  require_running (JDict d) = Ok true →
  dict_get d "drawnOrder" = Some x →
  py_list x = Raise TypeError →
  handle_api_draw r w = (Raise TypeError, w)
  ∧ handle_api_undo w = (Raise TypeError, w).
Proof.
  intros Hload Hrun Hx Hl. split.
  - unfold handle_api_draw. rewrite (bind_ok _ _ _ _ _ Hload). cbn [is_none].
    rewrite bind_lift, Hrun. cbn [negb].
    by rewrite bind_lift, make_remaining_set_dict, Hx; cbn [default from_option id];
      rewrite Hl.
  - unfold handle_api_undo. rewrite (bind_ok _ _ _ _ _ Hload). cbn [is_none].
    rewrite bind_lift, Hrun. cbn [negb].
    by rewrite bind_lift, py_get_dict, Hx; cbn [default from_option id];
      rewrite bind_lift, Hl.
Qed.

(** ** Listing the archived events *)

#[global] Instance name_after_trans : Transitive name_after.
Proof. intros a b c Hab Hbc. unfold name_after in *. by etrans. Qed.

#[global] Instance name_after_total : Total name_after.
Proof. intros a b. unfold name_after. destruct (total String.le a b); auto. Qed.

Lemma StronglySorted_filter_keep {A : Type} (R : relation A) (P : A → Prop)
    `{∀ x, Decision (P x)} (l : list A) :
  StronglySorted R l → StronglySorted R (filter P l).
Proof.
  induction 1 as [|x l Hl IH Hx]; [constructor|].
  destruct (decide (P x)).
  - rewrite filter_cons_True by done. constructor; [done|].
    apply Forall_forall. intros y [_ Hy]%list_elem_of_filter.
    rewrite Forall_forall in Hx. by apply Hx.
  - by rewrite filter_cons_False.
Qed.

Lemma event_item_inv (st : json) (event_file file_name : string) (item : json) :
  event_item st event_file file_name = Ok item →
  is_dict st = true
  ∧ item_file_name item = JStr file_name
  ∧ dict_get (fields item) "eventFile" = Some (JStr event_file).
Proof.
  destruct st as [| | | | |d]; try done.
  unfold event_item. rewrite !py_get_dict, !result_bind_ok.
  destruct (py_len _) as [n|]; [|done].
  rewrite result_bind_ok. by intros [= <-].
Qed.

Lemma event_item_non_object (st : json) (event_file file_name : string) :
  is_dict st = false → ∃ e, event_item st event_file file_name = Raise e.
Proof. destruct st; try done; by exists AttributeError. Qed.

Lemma listed_true (w : world) (name : string) :
  listed w name = true ↔
  name ≠ "latest.json"
  ∧ ∃ st, files w !! fs_key w (data_file name w) = Some (Document st).
Proof.
  unfold listed. rewrite andb_true_iff, negb_true_iff, bool_decide_eq_false.
  destruct (files w !! fs_key w (data_file name w)) as [[st|]|].
  - split; [intros [? _]; eauto|by intros [? _]].
  - split; [by intros [_ ?]|by intros [_ [? ?]]].
  - split; [by intros [_ ?]|by intros [_ [? ?]]].
Qed.

Lemma list_events_ok (w : world) (names : list string) (items : list json) :
  list_events w names = Ok items →
  Forall2 (λ item name,
             ∃ st, files w !! fs_key w (data_file name w) = Some (Document st)
                   ∧ event_item st (path_str (data_file name w)) name = Ok item)
          items (filter (λ name, listed w name) names).
Proof.
  revert items. induction names as [|name names IH]; intros items.
  - intros [= <-]. constructor.
  - cbn [list_events]. destruct (decide (listed w name)) as [Hl|Hl].
    + rewrite filter_cons_True by done.
      apply Is_true_true, listed_true in Hl as (Hne & st & Hst).
      rewrite bool_decide_false, Hst by done.
      destruct (event_item st _ name) as [item|] eqn:Hitem; [|done].
      rewrite result_bind_ok.
      destruct (list_events w names) as [rest|]; [|done].
      rewrite result_bind_ok. intros [= <-].
      constructor; [by exists st|by apply IH].
    + rewrite filter_cons_False by done.
      apply Is_true_false in Hl. unfold listed in Hl.
      destruct (bool_decide (name = "latest.json")); [by apply IH|].
      destruct (files w !! fs_key w (data_file name w)) as [[st|]|];
        [done|by apply IH..].
Qed.

Lemma list_events_raise (w : world) (names : list string) (name : string)
    (st : json) :
  name ∈ names → name ≠ "latest.json" →
  files w !! fs_key w (data_file name w) = Some (Document st) →
  is_dict st = false →
  ∃ e, list_events w names = Raise e.
Proof.
  intros Hin Hne Hst Hd. induction names as [|n names IH].
  - by apply not_elem_of_nil in Hin.
  - cbn [list_events]. apply elem_of_cons in Hin as [<-|Hin].
    + rewrite bool_decide_false, Hst by done.
      destruct (event_item_non_object st (path_str (data_file name w)) name Hd)
        as [e ->].
      by exists e.
    + destruct (IH Hin) as [e He]. rewrite He.
      destruct (bool_decide (n = "latest.json")); [by exists e|].
      destruct (files w !! fs_key w (data_file n w)) as [[st'|]|];
        [|by exists e..].
      destruct (event_item st' _ n) as [item|e']; [by exists e|by exists e'].
Qed.

Lemma elem_of_glob_json (w : world) (name : string) :
  name ∈ glob_json w ↔
  is_json_name name = true
  ∧ is_Some (files w !! fs_key w (data_file name w))
  ∧ path_name (Path (fs_key w (data_file name w))) = name.
Proof.
  unfold glob_json. rewrite list_elem_of_In, filter_In, <-list_elem_of_In.
  rewrite list_elem_of_omap. split.
  - intros [(k & Hk & Hname) Hj]. split; [done|].
    apply list_elem_of_fmap in Hk as ([k' x] & -> & Hx).
    apply elem_of_map_to_list in Hx. simpl in Hname.
    unfold data_file_name in Hname.
    destruct (decide _) as [E|]; [|done]. injection Hname as <-.
    rewrite <-E. split; [eauto|done].
  - intros (Hj & [x Hx] & Hname). split; [|done].
    exists (fs_key w (data_file name w)). split.
    + apply list_elem_of_fmap. exists (fs_key w (data_file name w), x).
      split; [done|]. by apply elem_of_map_to_list.
    + unfold data_file_name. rewrite Hname. by rewrite decide_True.
Qed.

Lemma data_file_plain (w : world) (name : string) :
  Forall plain_part (app_root w) → plain_part name →
  path_name (Path (fs_key w (data_file name w))) = name.
Proof.
  intros Hroot Hname.
  destruct (path_inside_data_archive w name Hroot Hname) as (_ & Hn & Hcs).
  unfold data_file. rewrite (Path_plain name Hname), DATA_DIR_parts.
  unfold path_div. cbn [anchor_of parts]. rewrite <-app_assoc. cbn [app].
  by rewrite (proj1 (fs_key_plain w _ Hcs)).
Qed.

(** Whenever [GET /api/events] answers, nothing has changed and the entries
    it sends are, in this order, those of the names it lists: files
    directly in [data/] whose name ends in [.json] and is not
    [latest.json], whose text is JSON; the names go from the last to the
    first, and every such file with a plain name is listed when the
    installation directory is a resolved path. Each entry carries the name
    as [fileName] and the path as [eventFile]. *)
Theorem events_lists_the_archive (w w' : world) (rep : response) :
  handle_api_events w = (Ok rep, w') →
  w' = w
  ∧ ∃ items names,
      rep = Response 200 (JDict [("ok", JBool true); ("events", JList items)])
      ∧ Forall2 (λ item name,
                   item_file_name item = JStr name
                   ∧ dict_get (fields item) "eventFile"
                     = Some (JStr (path_str (data_file name w))))
                items names
      ∧ StronglySorted name_after names
      ∧ (∀ name, name ∈ names →
                 is_json_name name = true
                 ∧ name ≠ "latest.json"
                 ∧ ∃ st, files w !! fs_key w (data_file name w)
                         = Some (Document st))
      ∧ (Forall plain_part (app_root w) →
         ∀ name st, plain_part name → is_json_name name = true →
                    name ≠ "latest.json" →
                    files w !! fs_key w (data_file name w) = Some (Document st) →
                    name ∈ names).
Proof.
  unfold handle_api_events. rewrite bind_lift.
  destruct (list_events w _) as [items|] eqn:Hlist; [|done].
  intros [= <- <-]. split; [done|].
  exists items, (filter (λ name, listed w name) (merge_sort name_after (glob_json w))).
  split_and!; [done| | | |].
  - eapply Forall2_impl; [by apply list_events_ok|].
    intros item name (st & _ & Hitem). simpl in Hitem.
    by apply event_item_inv in Hitem as (_ & ? & ?).
  - apply StronglySorted_filter_keep, StronglySorted_merge_sort; apply _.
  - intros name [Hl Hin]%list_elem_of_filter.
    apply Is_true_true, listed_true in Hl as [Hne Hst].
    rewrite merge_sort_Permutation in Hin.
    by apply elem_of_glob_json in Hin as (Hj & _ & _).
  - intros Hroot name st Hp Hj Hne Hst. apply list_elem_of_filter. split.
    + apply Is_true_true, listed_true. eauto.
    + rewrite merge_sort_Permutation. apply elem_of_glob_json.
      split_and!; [done|by rewrite Hst|by apply data_file_plain].
Qed.

(** One archive whose text is JSON but not an object (a list, a number, a
    string) is enough to make [GET /api/events] raise instead of
    answering. *)
Theorem events_raise_on_non_object (w : world) (name : string) (st : json) :
  Forall plain_part (app_root w) →
  plain_part name →
  is_json_name name = true →
  name ≠ "latest.json" →
  files w !! fs_key w (data_file name w) = Some (Document st) →
  is_dict st = false →
  ∃ e, handle_api_events w = (Raise e, w).
Proof.
  intros Hroot Hp Hj Hne Hst Hd.
  destruct (list_events_raise w (merge_sort name_after (glob_json w)) name st)
    as [e He]; try done.
  - rewrite merge_sort_Permutation. apply elem_of_glob_json.
    split_and!; [done|by rewrite Hst|by apply data_file_plain].
  - exists e. unfold handle_api_events. by rewrite bind_lift, He.
Qed.

(* ================================================================== *)
(** * The statements at sample inputs *)

Example bingo_label_samples :
  bingo_label 1 = "B-1" ∧ bingo_label 15 = "B-15" ∧ bingo_label 16 = "I-16"
  ∧ bingo_label 45 = "N-45" ∧ bingo_label 61 = "O-61" ∧ bingo_label 75 = "O-75"
  ∧ bingo_label 76 = "76".
Proof. repeat split. Qed.

(** create, start, draw, undo: the second undo finds nothing to undo. *)
Example undo_twice :
  handle_api_undo drawn_world
  = (Ok (Response 200 (ok_reply (slot undone_world))), undone_world)
  ∧ py_get (slot undone_world) "drawnOrder" JNull = Ok (JList [])
  ∧ handle_api_undo undone_world
    = (Ok (Response 400 (error_reply "nothing to undo")), undone_world).
Proof. split_and!; vm_compute; reflexivity. Qed.

(** After [end] neither draw nor start goes through. *)
Example ended_is_final :
  handle_api_draw 3 ended_world
  = (Ok (Response 400 (error_reply "not running")), ended_world)
  ∧ handle_api_start "2026-02-10T08:00:00" ended_world
    = (Ok (Response 400 (error_reply "event ended")), ended_world).
Proof. split; vm_compute; reflexivity. Qed.



Lemma draws_until_exhaustion_witness :
  ∃ (state1 : json) (w2 : world) (reps : list response) (w3 : world)
    (state3 : json) (ns : list Z),
    handle_api_start "2026-02-09T22:20:00" party_world
    = (Ok (Response 200 (ok_reply state1)), w2)
    ∧ draw_all (replicate 75 7%nat) w2 = (Ok reps, w3)
    ∧ length reps = 75%nat
    ∧ Forall (λ rep, code rep = 200) reps
    ∧ load_latest w3 = (Ok state3, w3)
    ∧ py_get state3 "drawnOrder" (JList []) = Ok (JList (JInt <$> ns))
    ∧ ns ≡ₚ seqZ 1 75
    ∧ length ns = 75%nat
    ∧ ∀ r, handle_api_draw r w3
           = (Ok (Response 400 (error_reply "no remaining numbers")), w3).
Proof.
  apply (draws_until_exhaustion party_body "20260209_221530"
           "2026-02-09T22:15:30" "2026-02-09T22:20:00" (replicate 75 7%nat)
           fresh_world party_world (Response 200 (ok_reply (slot party_world)))).
  - vm_compute. reflexivity.
  - reflexivity.
Defined.

Lemma undo_after_draw_restores_witness :
  ∃ state2 w2,
    handle_api_undo drawn_world = (Ok (Response 200 (ok_reply state2)), w2)
    ∧ load_latest w2 = (Ok state2, w2)
    ∧ py_get state2 "drawnOrder" (JList [])
      = py_get (slot started_world) "drawnOrder" (JList [])
    ∧ py_get state2 "currentNumber" JNull
      = py_get (slot started_world) "currentNumber" JNull
    ∧ py_get state2 "currentLabel" JNull
      = py_get (slot started_world) "currentLabel" JNull
    ∧ py_get state2 "remainingCount" JNull
      = py_get (slot started_world) "remainingCount" JNull.
Proof.
  apply (undo_after_draw_restores 7 started_world drawn_world
           (slot started_world) (slot drawn_world) []).
  - vm_compute. reflexivity.
  - repeat split; try constructor; vm_compute; reflexivity.
  - vm_compute. reflexivity.
Defined.

Lemma draw_remaining_count_witness :
  ∃ (ns' : list Z) (X' : gset Z),
    history (slot drawn_world) ns'
    ∧ length ns' = 1%nat
    ∧ py_get (slot drawn_world) "remainingCount" JNull
      = Ok (JInt (75 - Z.of_nat (length ns')))
    ∧ make_remaining_set (slot drawn_world) = Ok X'
    ∧ Z.of_nat (size X') = 75 - Z.of_nat (length ns').
Proof.
  apply (draw_remaining_count 7 started_world drawn_world
           (slot started_world) (slot drawn_world) []).
  - vm_compute. reflexivity.
  - repeat split; try constructor; vm_compute; reflexivity.
  - vm_compute. reflexivity.
Defined.

Lemma draw_refused_when_not_running_witness :
  handle_api_draw 7 party_world
  = (Ok (Response 400 (error_reply "not running")), party_world)
  ∧ load_latest party_world = (Ok (slot party_world), party_world).
Proof.
  apply (draw_refused_when_not_running party_world (slot party_world) 7).
  - vm_compute. reflexivity.
  - left. vm_compute. reflexivity.
Defined.

Lemma draw_uniform_over_pool_witness :
  (∀ r n, draw_yields started_world r n
          ↔ sorted (pool []) !! (r mod size (pool []))%nat = Some n)
  ∧ NoDup (sorted (pool []))
  ∧ length (sorted (pool [])) = size (pool [])
  ∧ (∀ n, n ∈ sorted (pool []) ↔ n ∈ pool []).
Proof.
  apply (draw_uniform_over_pool started_world (slot started_world) (pool [])).
  - vm_compute. reflexivity.
  - vm_compute. reflexivity.
  - vm_compute. reflexivity.
  - intros E. assert (1 ∈ pool []) as H by (by apply elem_of_pool; split; [lia|apply not_elem_of_nil]).
    rewrite E in H. by apply not_elem_of_empty in H.
  - assert (unwritable started_world = ∅) as -> by (vm_compute; reflexivity).
    apply not_elem_of_empty.
Defined.

Lemma end_idempotent_witness :
  handle_api_end "2026-02-10T08:00:00" ended_world
  = (Ok (Response 200 (ok_reply (slot ended_world))), ended_world).
Proof.
  apply (proj2 (end_idempotent drawn_world) "2026-02-09T23:00:00"
           "2026-02-10T08:00:00" (slot ended_world) ended_world).
  vm_compute. reflexivity.
Defined.

Lemma persist_state_archive_failure_swallowed_witness :
  persist_state (slot locked_world) locked_world
  = (Ok (), locked_world)
  ∧ load_latest locked_world = (Ok (slot locked_world), locked_world).
Proof.
  destruct (persist_state_archive_failure_swallowed
              (fields (slot locked_world)) party_file locked_world locked_world)
    as [Hp Hl].
  - vm_compute. reflexivity.
  - vm_compute. reflexivity.
  - discriminate.
  - split; [exact Hp|]. apply Hl. exact Hp.
Defined.



(** Two leading slashes are the root for [resolve()]: the archive named so
    lies inside [data/] and the request to delete it is accepted. The slot,
    which names the archive with one slash, is kept. *)
Example delete_by_double_slash :
  ∃ w',
    path_inside_data (Path party_slashes) party_world = (Ok true, party_world)
    ∧ handle_api_delete (JDict [("eventFile", JStr party_slashes)]) party_world
      = (Ok (Response 200 (JDict [("ok", JBool true)])), w')
    ∧ path_exists (λ _, Path party_file) w' = (Ok false, w')
    ∧ load_latest w' = (Ok (slot party_world), w').
Proof.
  exists (snd (handle_api_delete (JDict [("eventFile", JStr party_slashes)])
                 party_world)).
  split_and!; vm_compute; reflexivity.
Qed.

(** What [int] reads and what it does not. *)
Example int_of_string_samples :
  int_of_string " 12 " = Some 12
  ∧ int_of_string "-7" = Some (-7)
  ∧ int_of_string "1_000" = Some 1000
  ∧ int_of_string "007" = Some 7
  ∧ int_of_string fs_target = None
  ∧ int_of_string "abc" = None
  ∧ int_of_string "+ 5" = None
  ∧ int_of_string "5_" = None
  ∧ int_of_string "" = None.
Proof. repeat split; vm_compute; reflexivity. Qed.

(** [int] reads 4300 digits and refuses 4301. *)
Example int_of_string_limit :
  int_of_string (String.concat "" (replicate 4300%nat "1")) ≠ None
  ∧ int_of_string (String.concat "" (replicate 4301%nat "1")) = None.
Proof. split; [vm_compute; discriminate|vm_compute; reflexivity]. Qed.

(* ================================================================== *)
(** * The further properties at sample inputs *)

Ltac calc := vm_compute; reflexivity.

Ltac unprotected :=
  match goal with
  | |- _ ∉ ?X => replace X with (∅ : gset string) by calc; apply not_elem_of_empty
  end.

Lemma sample_root_plain : Forall plain_part ["srv"; "BingoApp"].
Proof. repeat constructor; done. Qed.

Lemma engine_keeps_invariants_witness : slot_inv (serve party_game fresh_world).
Proof.
  apply (engine_keeps_invariants party_game fresh_world).
  left. calc.
Defined.

Lemma no_event_refused_witness :
  handle_api_state fresh_world = (Ok (Response 200 (ok_reply JNull)), fresh_world)
  ∧ handle_api_start "2026-02-09T22:20:00" fresh_world
    = (Ok (Response 400 (error_reply "no event")), fresh_world)
  ∧ handle_api_draw 3 fresh_world
    = (Ok (Response 400 (error_reply "no event")), fresh_world)
  ∧ handle_api_undo fresh_world
    = (Ok (Response 400 (error_reply "no event")), fresh_world)
  ∧ handle_api_end "2026-02-09T22:20:00" fresh_world
    = (Ok (Response 400 (error_reply "no event")), fresh_world).
Proof.
  apply (no_event_refused fresh_world "2026-02-09T22:20:00" 3).
  left. calc.
Defined.

Lemma start_sets_running_witness :
  ∃ d' w',
    handle_api_start "2026-02-09T22:20:00" party_world
    = (Ok (Response 200 (ok_reply (JDict d'))), w')
    ∧ load_latest w' = (Ok (JDict d'), w')
    ∧ dict_get d' "status" = Some (JStr "running")
    ∧ dict_get d' "startedAt" = Some (JStr "2026-02-09T22:20:00")
    ∧ ∀ k, k ≠ "status" → k ≠ "startedAt" →
           dict_get d' k = dict_get (fields (slot party_world)) k.
Proof.
  apply (start_sets_running "2026-02-09T22:20:00" party_world
           (fields (slot party_world))).
  - calc.
  - calc.
  - calc.
  - unprotected.
Defined.

Lemma start_when_running_is_noop_witness :
  handle_api_start "2026-02-09T22:30:00" started_world
  = (Ok (Response 200 (ok_reply (slot started_world))), started_world).
Proof.
  apply (start_when_running_is_noop "2026-02-09T22:30:00" started_world
           (slot started_world)); calc.
Defined.

Lemma end_sets_ended_witness :
  ∃ d' w',
    handle_api_end "2026-02-09T23:00:00" drawn_world
    = (Ok (Response 200 (ok_reply (JDict d'))), w')
    ∧ load_latest w' = (Ok (JDict d'), w')
    ∧ dict_get d' "status" = Some (JStr "ended")
    ∧ dict_get d' "endedAt" = Some (JStr "2026-02-09T23:00:00")
    ∧ ∀ k, k ≠ "status" → k ≠ "endedAt" →
           dict_get d' k = dict_get (fields (slot drawn_world)) k.
Proof.
  apply (end_sets_ended "2026-02-09T23:00:00" drawn_world
           (fields (slot drawn_world))).
  - calc.
  - calc.
  - unprotected.
Defined.

Lemma ended_is_terminal_witness :
  handle_api_start "2026-02-10T08:00:00" ended_world
  = (Ok (Response 400 (error_reply "event ended")), ended_world)
  ∧ handle_api_draw 5 ended_world
    = (Ok (Response 400 (error_reply "not running")), ended_world)
  ∧ handle_api_undo ended_world
    = (Ok (Response 400 (error_reply "not running")), ended_world)
  ∧ handle_api_end "2026-02-10T08:00:00" ended_world
    = (Ok (Response 200 (ok_reply (slot ended_world))), ended_world).
Proof.
  apply (ended_is_terminal ended_world (slot ended_world)
           "2026-02-10T08:00:00" 5); calc.
Defined.

Lemma undo_refused_witness :
  handle_api_undo party_world
  = (Ok (Response 400 (error_reply "not running")), party_world)
  ∧ handle_api_undo started_world
    = (Ok (Response 400 (error_reply "nothing to undo")), started_world).
Proof.
  split.
  - apply (proj1 (undo_refused party_world (slot party_world) ltac:(calc))).
    calc.
  - apply (proj2 (undo_refused started_world (slot started_world) ltac:(calc)));
      calc.
Defined.

Lemma undo_drops_last_witness :
  ∃ d' w' X,
    handle_api_undo drawn_world = (Ok (Response 200 (ok_reply (JDict d'))), w')
    ∧ load_latest w' = (Ok (JDict d'), w')
    ∧ event_inv (JDict d') []
    ∧ make_remaining_set (JDict d') = Ok X
    ∧ 8 ∈ X
    ∧ ∀ k, k ≠ "drawnOrder" → k ≠ "currentNumber" → k ≠ "currentLabel" →
           k ≠ "remainingCount" →
           dict_get d' k = dict_get (fields (slot drawn_world)) k.
Proof.
  apply (undo_drops_last drawn_world (fields (slot drawn_world)) [] 8).
  - calc.
  - calc.
  - split; [split; [calc|split]|split_and!; calc].
    + apply NoDup_singleton.
    + apply Forall_singleton. lia.
  - unprotected.
Defined.

Lemma draw_appends_fresh_number_witness :
  ∃ d items n d',
    load_latest started_world = (Ok (JDict d), started_world)
    ∧ py_list (default (JList []) (dict_get d "drawnOrder")) = Ok items
    ∧ slot drawn_world = JDict d'
    ∧ load_latest drawn_world = (Ok (slot drawn_world), drawn_world)
    ∧ dict_get d' "drawnOrder" = Some (JList (items ++ [JInt n]))
    ∧ 1 ≤ n ≤ 75
    ∧ (JInt n ∉ items)
    ∧ dict_get d' "currentNumber" = Some (JInt n)
    ∧ dict_get d' "currentLabel" = Some (JStr (bingo_label n))
    ∧ (∃ c, dict_get d' "remainingCount" = Some (JInt c) ∧ 0 ≤ c ≤ 74)
    ∧ ∀ k, k ≠ "drawnOrder" → k ≠ "currentNumber" → k ≠ "currentLabel" →
           k ≠ "remainingCount" → dict_get d' k = dict_get d k.
Proof.
  apply (draw_appends_fresh_number 7 started_world drawn_world (slot drawn_world)).
  calc.
Defined.

Lemma read_only_slot_blocks_engine_witness :
  snd (handle_api_start "2026-02-09T22:30:00" frozen_world) = frozen_world
  ∧ snd (handle_api_draw 7 frozen_world) = frozen_world
  ∧ snd (handle_api_undo frozen_world) = frozen_world
  ∧ snd (handle_api_end "2026-02-09T22:30:00" frozen_world) = frozen_world.
Proof.
  apply (read_only_slot_blocks_engine frozen_world "2026-02-09T22:30:00" 7).
  change (latest_key frozen_world ∈ ({[latest_name]} : gset string)).
  apply elem_of_singleton. calc.
Defined.

Lemma persist_state_copies_agree_witness :
  ∃ w',
    persist_state (JDict (fields (slot party_world))) party_world = (Ok (), w')
    ∧ load_latest w' = (Ok (JDict (fields (slot party_world))), w')
    ∧ read_json (λ _, Path party_file) w'
      = (Ok (JDict (fields (slot party_world))), w')
    ∧ ∀ k, k ≠ latest_key party_world → k ≠ fs_key party_world (Path party_file) →
           files w' !! k = files party_world !! k.
Proof.
  apply (persist_state_copies_agree (fields (slot party_world)) party_file
           party_world).
  - calc.
  - discriminate.
  - unprotected.
  - unprotected.
Defined.

Lemma reset_clears_slot_only_witness :
  ∃ w',
    handle_api_reset party_world
    = (Ok (Response 200 (JDict [("ok", JBool true)])), w')
    ∧ load_latest w' = (Ok JNull, w').
Proof.
  destruct (reset_clears_slot_only party_world) as (w' & H1 & _ & _ & H4 & _).
  exists w'. split; [exact H1|]. apply H4. unprotected.
Defined.

Lemma create_archives_event_witness :
  ∃ state name f,
    Response 200 (ok_reply (slot party_world)) = Response 200 (ok_reply state)
    ∧ py_get state "eventName" JNull = Ok (JStr name)
    ∧ f = path_str (MkPath Root (app_root fresh_world
                                   ++ ["data"; archive_name "20260209_221530" name]))
    ∧ py_get state "eventFile" JNull = Ok (JStr f)
    ∧ load_latest party_world = (Ok state, party_world)
    ∧ read_json (λ _, Path f) party_world = (Ok state, party_world)
    ∧ path_inside_data (Path f) party_world = (Ok true, party_world)
    ∧ path_name (Path f) ≠ "latest.json"
    ∧ ∀ k, k ≠ latest_key fresh_world → k ≠ fs_key fresh_world (Path f) →
           files party_world !! k = files fresh_world !! k.
Proof.
  apply (create_archives_event party_body "20260209_221530"
           "2026-02-09T22:15:30" fresh_world party_world
           (Response 200 (ok_reply (slot party_world)))).
  - exact sample_root_plain.
  - reflexivity.
  - calc.
Defined.



Lemma create_then_delete_witness :
  ∃ state f w2,
    Response 200 (ok_reply (slot party_world)) = Response 200 (ok_reply state)
    ∧ py_get state "eventFile" JNull = Ok (JStr f)
    ∧ handle_api_delete (JDict [("eventFile", JStr f)]) party_world
      = (Ok (Response 200 (JDict [("ok", JBool true)])), w2)
    ∧ load_latest w2 = (Ok JNull, w2)
    ∧ path_exists (λ _, Path f) w2 = (Ok false, w2)
    ∧ ∀ k, k ≠ latest_key fresh_world → k ≠ fs_key fresh_world (Path f) →
           files w2 !! k = files fresh_world !! k.
Proof.
  apply (create_then_delete party_body "20260209_221530" "2026-02-09T22:15:30"
           fresh_world party_world (Response 200 (ok_reply (slot party_world)))).
  - exact sample_root_plain.
  - reflexivity.
  - reflexivity.
  - calc.
Defined.



Lemma reset_then_use_restores_witness :
  ∃ state f w2 w3,
    Response 200 (ok_reply (slot party_world)) = Response 200 (ok_reply state)
    ∧ py_get state "eventFile" JNull = Ok (JStr f)
    ∧ handle_api_reset party_world
      = (Ok (Response 200 (JDict [("ok", JBool true)])), w2)
    ∧ load_latest w2 = (Ok JNull, w2)
    ∧ handle_api_use (JDict [("eventFile", JStr f)]) w2
      = (Ok (Response 200 (ok_reply state)), w3)
    ∧ load_latest w3 = (Ok state, w3).
Proof.
  apply (reset_then_use_restores party_body "20260209_221530"
           "2026-02-09T22:15:30" fresh_world party_world
           (Response 200 (ok_reply (slot party_world)))).
  - exact sample_root_plain.
  - reflexivity.
  - apply not_elem_of_empty.
  - calc.
Defined.

Lemma bingo_label_inj_witness : (61 : Z) = 61.
Proof. apply (bingo_label_inj 61 61). reflexivity. Defined.


Lemma non_object_slot_raises_witness :
  handle_api_state list_world = (Ok (Response 200 (ok_reply (JList []))), list_world)
  ∧ handle_api_start "2026-02-09T22:20:00" list_world
    = (Raise AttributeError, list_world)
  ∧ handle_api_draw 7 list_world = (Raise AttributeError, list_world)
  ∧ handle_api_undo list_world = (Raise AttributeError, list_world)
  ∧ handle_api_end "2026-02-09T22:20:00" list_world
    = (Raise AttributeError, list_world).
Proof.
  apply (non_object_slot_raises list_world (JList []) "2026-02-09T22:20:00" 7);
    calc.
Defined.

Lemma unreadable_history_raises_witness :
  handle_api_draw 7 null_history_world = (Raise TypeError, null_history_world)
  ∧ handle_api_undo null_history_world = (Raise TypeError, null_history_world).
Proof.
  apply (unreadable_history_raises null_history_world null_history JNull 7);
    calc.
Defined.

Lemma events_lists_the_archive_witness :
  ∃ items names,
    reply_of (handle_api_events drawn_world)
    = Response 200 (JDict [("ok", JBool true); ("events", JList items)])
    ∧ Forall2 (λ item name,
                 item_file_name item = JStr name
                 ∧ dict_get (fields item) "eventFile"
                   = Some (JStr (path_str (data_file name drawn_world))))
              items names
    ∧ StronglySorted name_after names.
Proof.
  destruct (events_lists_the_archive drawn_world drawn_world
              (reply_of (handle_api_events drawn_world)))
    as (_ & items & names & H1 & H2 & H3 & _).
  - calc.
  - exists items, names. exact (conj H1 (conj H2 H3)).
Defined.

Lemma events_raise_on_non_object_witness :
  ∃ e, handle_api_events odd_world = (Raise e, odd_world).
Proof.
  apply (events_raise_on_non_object odd_world "odd.json" (JList [])).
  - exact sample_root_plain.
  - repeat split; done.
  - reflexivity.
  - discriminate.
  - calc.
  - reflexivity.
Defined.
